(** * Book Management API: data-access layer and request handlers

    A shallow embedding of [server/database.js] (the five [dbOperations])
    and [server/routes/books.js] (the five route handlers), together with
    the part of the SQL store that the statements of [database.js] exercise
    on the [books] table. *)

From Stdlib Require Import ZArith Ascii String List Lia Permutation Sorted.
From stdpp Require Import base option list gmap strings pretty.

Local Open Scope string_scope.
Local Open Scope list_scope.

(** ** Values *)

(** The scalar values a parsed JSON body (or a JavaScript caller) can put in a
    field.  [JUndefined] is what destructuring yields for an absent key.
    Numbers are the integral ones. *)
Inductive jsval : Type :=
  | JUndefined
  | JNull
  | JBool (b : bool)
  | JNum (n : Z)
  | JStr (s : string).

(** Storage classes of the store for the values above. *)
Inductive sqlval : Type :=
  | SNull
  | SInt (n : Z)
  | SText (s : string).

#[global] Instance jsval_eq_dec : EqDecision jsval.
Proof. solve_decision. Defined.

#[global] Instance sqlval_eq_dec : EqDecision sqlval.
Proof. solve_decision. Defined.

(** JavaScript truthiness, as used by [!title] and [!book]. *)
Definition truthy (v : jsval) : bool :=
  match v with
  | JUndefined | JNull => false
  | JBool b => b
  | JNum n => negb (n =? 0)%Z
  | JStr s => negb (String.eqb s "")
  end.

(** How the driver binds a JavaScript value to a [?] placeholder: [null] is
    bound as NULL, [undefined] leaves the placeholder unbound (NULL),
    booleans become 0/1. *)
Definition bind_param (v : jsval) : sqlval :=
  match v with
  | JUndefined | JNull => SNull
  | JBool b => SInt (if b then 1 else 0)
  | JNum n => SInt n
  | JStr s => SText s
  end.

Definition is_null (v : sqlval) : bool :=
  match v with SNull => true | _ => false end.

(** [String.prototype.includes]. *)
Fixpoint includes (s search : string) : bool :=
  String.prefix search s ||
  match s with
  | EmptyString => false
  | String _ s' => includes s' search
  end.

(** ** Rows of the [books] table *)

Module Book.
Record t : Type := mk {
  id : Z;
  title : sqlval;
  author : sqlval;
  isbn : sqlval;
  published_year : sqlval;
  genre : sqlval;
  description : sqlval;
  created_at : Z;        (* CURRENT_TIMESTAMP, whole seconds *)
  updated_at : Z
}.
End Book.

(** The object [{ title, author, isbn, published_year, genre, description }]
    handed to [createBook] and [updateBook]. *)
Module BookData.
Record t : Type := mk {
  title : jsval;
  author : jsval;
  isbn : jsval;
  published_year : jsval;
  genre : jsval;
  description : jsval
}.
End BookData.

#[global] Instance book_eq_dec : EqDecision Book.t.
Proof. solve_decision. Defined.

(** ** The store *)

(** [books] is the table in rowid order; [sqlite_sequence] is the AUTOINCREMENT
    high-water mark; [now_ms] is the wall clock in milliseconds; [faults] is
    the fate of the coming statements, one entry per statement: [Some msg]
    makes the statement fail with that message (I/O error, locked file, ...),
    [None] lets it run.  An exhausted list means no more faults. *)
Record Store : Type := mkStore {
  books : list Book.t;
  sqlite_sequence : Z;
  now_ms : Z;
  faults : list (option string)
}.

Definition set_books (l : list Book.t) (st : Store) : Store :=
  mkStore l (sqlite_sequence st) (now_ms st) (faults st).

Definition set_faults (f : list (option string)) (st : Store) : Store :=
  mkStore (books st) (sqlite_sequence st) (now_ms st) f.

(** Wall-clock time passing between two requests. *)
Definition tick (ms : Z) (st : Store) : Store :=
  mkStore (books st) (sqlite_sequence st) (now_ms st + ms) (faults st).

(** [CURRENT_TIMESTAMP] has a resolution of one second. *)
Definition CURRENT_TIMESTAMP (st : Store) : Z := (now_ms st / 1000)%Z.

(** ** Promises and exceptions *)

(** The outcome of awaiting a promise or of running a block: a value, or a
    thrown error, of which only [error.message] is ever read. *)
Inductive Result (A : Type) : Type :=
  | Ok (a : A)
  | Throw (message : string).
Arguments Ok {A} a.
Arguments Throw {A} message.

Definition M (A : Type) : Type := Store -> Result A * Store.

#[global] Instance M_ret : MRet M := fun A a st => (Ok a, st).

#[global] Instance M_bind : MBind M := fun A B f m st =>
  match m st with
  | (Ok a, st') => f a st'
  | (Throw e, st') => (Throw e, st')
  end.

(** [try { body } catch (error) { handler }]. *)
Definition try_catch {A} (body : M A) (handler : string -> M A) : M A :=
  fun st =>
    match body st with
    | (Ok a, st') => (Ok a, st')
    | (Throw e, st') => handler e st'
    end.

(** Every statement first meets its fate. *)
Definition statement {A} (run : M A) : M A := fun st =>
  match faults st with
  | Some msg :: rest => (Throw msg, set_faults rest st)
  | None :: rest => run (set_faults rest st)
  | [] => run st
  end.

(** ** The statements of [database.js] *)

(** [ORDER BY created_at DESC]: a stable sort of the table scan, so that rows
    with equal [created_at] stay in rowid order. *)
Fixpoint insert_desc (b : Book.t) (l : list Book.t) : list Book.t :=
  match l with
  | [] => [b]
  | x :: l' =>
      if (Book.created_at x <=? Book.created_at b)%Z then b :: l
      else x :: insert_desc b l'
  end.

Definition order_by_created_at_desc (l : list Book.t) : list Book.t :=
  foldr insert_desc [] l.

Fixpoint max_rowid (l : list Book.t) : Z :=
  match l with
  | [] => 0
  | b :: l' => Z.max (Book.id b) (max_rowid l')
  end.

(** AUTOINCREMENT: one more than the largest rowid that ever existed. *)
Definition next_rowid (st : Store) : Z :=
  (Z.max (sqlite_sequence st) (max_rowid (books st)) + 1)%Z.

Definition isbn_taken (v : sqlval) (l : list Book.t) : bool :=
  negb (is_null v) && existsb (fun b => bool_decide (Book.isbn b = v)) l.

(** ** Requests and responses *)

(** [req.params.id] is the path segment as text; [req.body] is the parsed JSON
    object. *)
Record Request : Type := mkRequest {
  params_id : string;
  body : gmap string jsval
}.

(** [const { k } = req.body] *)
Definition field (k : string) (o : gmap string jsval) : jsval :=
  default JUndefined (o !! k).

Inductive Payload : Type :=
  | PBooks (rows : list Book.t)
  | PBook (row : Book.t)
  | PDeleted (deletedBook : Book.t).

(** The envelope [{success, message?, data?, total?, error?}]. *)
Record Envelope : Type := mkEnvelope {
  success : bool;
  message : option string;
  data : option Payload;
  total : option nat;
  error : option string
}.

Record Response : Type := mkResponse {
  status : nat;
  json : Envelope
}.

Definition failure (code : nat) (msg : string) (err : option string) : Response :=
  mkResponse code (mkEnvelope false (Some msg) None None err).

(** The text-to-integer and integer-to-text conversions of a store that reads
    and prints plain decimal numerals. *)
Definition digit_of (a : ascii) : option Z :=
  let n := Z.of_nat (nat_of_ascii a) in
  if ((48 <=? n) && (n <=? 57))%Z then Some (n - 48)%Z else None.

Fixpoint digits_value (acc : Z) (s : string) : option Z :=
  match s with
  | EmptyString => Some acc
  | String a s' =>
      match digit_of a with
      | Some d => digits_value (10 * acc + d)%Z s'
      | None => None
      end
  end.

Definition decimal_of_text (s : string) : option Z :=
  match s with
  | EmptyString => None
  | String a s' =>
      if Ascii.eqb a "-"%char then
        match s' with
        | EmptyString => None
        | _ => Z.opp <$> digits_value 0 s'
        end
      else digits_value 0 s
  end.

Definition text_of_decimal (n : Z) : string := pretty n.

(** The store's own conversions between text and integers (used by column
    affinity and by the comparison of a text parameter with the integer key)
    are an interface: every result below holds whatever they are. *)
Class Affinity : Type := {
  int_of_text : string -> option Z;
  text_of_int : Z -> string
}.

Section Engine.

Context {affinity : Affinity}.

(** TEXT affinity of [title], [author], [isbn], [genre], [description]. *)
Definition aff_text (v : sqlval) : sqlval :=
  match v with
  | SInt n => SText (text_of_int n)
  | _ => v
  end.

(** INTEGER affinity of [published_year] and of the key [id]. *)
Definition aff_int (v : sqlval) : sqlval :=
  match v with
  | SText s => match int_of_text s with Some n => SInt n | None => v end
  | _ => v
  end.

(** [WHERE id = ?] *)
Definition where_id (p : sqlval) (b : Book.t) : bool :=
  match aff_int p with
  | SInt n => (Book.id b =? n)%Z
  | _ => false
  end.

(** [SELECT * FROM books ORDER BY created_at DESC] *)
Definition select_all : M (list Book.t) :=
  statement (fun st => (Ok (order_by_created_at_desc (books st)), st)).

(** [SELECT * FROM books WHERE id = ?] through [db.get]: the first row, or
    [undefined]. *)
Definition select_by_id (p : sqlval) : M (option Book.t) :=
  statement (fun st => (Ok (List.find (where_id p) (books st)), st)).

(** The six bound values after column affinity. *)
Definition stored (d : BookData.t) (i c u : Z) : Book.t :=
  Book.mk i
    (aff_text (bind_param (BookData.title d)))
    (aff_text (bind_param (BookData.author d)))
    (aff_text (bind_param (BookData.isbn d)))
    (aff_int (bind_param (BookData.published_year d)))
    (aff_text (bind_param (BookData.genre d)))
    (aff_text (bind_param (BookData.description d)))
    c u.

(** [INSERT INTO books (title, author, isbn, published_year, genre,
    description) VALUES (?, ?, ?, ?, ?, ?)]; yields [this.lastID]. *)
Definition insert_book (d : BookData.t) : M Z :=
  statement (fun st =>
    let i := next_rowid st in
    let ts := CURRENT_TIMESTAMP st in
    let row := stored d i ts ts in
    if is_null (Book.title row) then
      (Throw "SQLITE_CONSTRAINT: NOT NULL constraint failed: books.title", st)
    else if is_null (Book.author row) then
      (Throw "SQLITE_CONSTRAINT: NOT NULL constraint failed: books.author", st)
    else if isbn_taken (Book.isbn row) (books st) then
      (Throw "SQLITE_CONSTRAINT: UNIQUE constraint failed: books.isbn", st)
    else
      (Ok i, mkStore (books st ++ [row]) i (now_ms st) (faults st))).

(** [UPDATE books SET title = ?, author = ?, isbn = ?, published_year = ?,
    genre = ?, description = ?, updated_at = CURRENT_TIMESTAMP WHERE id = ?];
    yields [this.changes].  The primary key lets at most one row match; the
    new [isbn] must not be held by any other row. *)
Definition update_row (d : BookData.t) (ts : Z) (p : sqlval) (b : Book.t) : Book.t :=
  if where_id p b then stored d (Book.id b) (Book.created_at b) ts else b.

Definition update_book (d : BookData.t) (p : sqlval) : M nat :=
  statement (fun st =>
    let hits := List.filter (where_id p) (books st) in
    let others := List.filter (fun b => negb (where_id p b)) (books st) in
    let row := stored d 0 0 0 in
    match hits with
    | [] => (Ok 0%nat, st)
    | _ :: _ =>
        if is_null (Book.title row) then
          (Throw "SQLITE_CONSTRAINT: NOT NULL constraint failed: books.title", st)
        else if is_null (Book.author row) then
          (Throw "SQLITE_CONSTRAINT: NOT NULL constraint failed: books.author", st)
        else if isbn_taken (Book.isbn row) others then
          (Throw "SQLITE_CONSTRAINT: UNIQUE constraint failed: books.isbn", st)
        else
          (Ok (length hits),
           set_books (map (update_row d (CURRENT_TIMESTAMP st) p) (books st)) st)
    end).

(** [DELETE FROM books WHERE id = ?] *)
Definition delete_book (p : sqlval) : M nat :=
  statement (fun st =>
    (Ok (length (List.filter (where_id p) (books st))),
     set_books (List.filter (fun b => negb (where_id p b)) (books st)) st)).

(** ** [dbOperations] *)

Definition getAllBooks : M (list Book.t) := select_all.

Definition getBookById (id : jsval) : M (option Book.t) :=
  select_by_id (bind_param id).

Definition createBook (bookData : BookData.t) : M (option Book.t) :=
  lastID ← insert_book bookData;
  select_by_id (bind_param (JNum lastID)).

Definition updateBook (id : jsval) (bookData : BookData.t) : M (option Book.t) :=
  changes ← update_book bookData (bind_param id);
  if (changes =? 0)%nat then mret None
  else select_by_id (bind_param id).

Definition deleteBook (id : jsval) : M (option Book.t) :=
  book ← select_by_id (bind_param id);
  match book with
  | None => mret None
  | Some b => _ ← delete_book (bind_param id); mret (Some b)
  end.

(** ** The route handlers of [routes/books.js] *)

Definition body_data (o : gmap string jsval) : BookData.t :=
  BookData.mk (field "title" o) (field "author" o) (field "isbn" o)
    (field "published_year" o) (field "genre" o) (field "description" o).

(** [error.message.includes('UNIQUE constraint failed')] and the two answers
    of the [catch] blocks of POST and PUT. *)
Definition on_write_error (generic : string) (error : string) : Response :=
  if includes error "UNIQUE constraint failed" then
    failure 400 "ISBN already exists" None
  else
    failure 500 generic (Some error).

(** GET /api/books *)
Definition get_books (req : Request) : M Response :=
  try_catch
    (books ← getAllBooks;
     mret (mkResponse 200
             (mkEnvelope true None (Some (PBooks books)) (Some (length books)) None)))
    (fun error => mret (failure 500 "Error retrieving books" (Some error))).

(** GET /api/books/:id *)
Definition get_book (req : Request) : M Response :=
  try_catch
    (let id := JStr (params_id req) in
     book ← getBookById id;
     match book with
     | None => mret (failure 404 "Book not found" None)
     | Some b => mret (mkResponse 200 (mkEnvelope true None (Some (PBook b)) None None))
     end)
    (fun error => mret (failure 500 "Error retrieving book" (Some error))).

(** POST /api/books *)
Definition post_book (req : Request) : M Response :=
  try_catch
    (let d := body_data (body req) in
     if negb (truthy (BookData.title d)) || negb (truthy (BookData.author d)) then
       mret (failure 400 "Title and author are required" None)
     else
       newBook ← createBook d;
       mret (mkResponse 201
               (mkEnvelope true (Some "Book created successfully")
                  (PBook <$> newBook) None None)))
    (fun error => mret (on_write_error "Error creating book" error)).

(** PUT /api/books/:id *)
Definition put_book (req : Request) : M Response :=
  try_catch
    (let id := JStr (params_id req) in
     let d := body_data (body req) in
     if negb (truthy (BookData.title d)) || negb (truthy (BookData.author d)) then
       mret (failure 400 "Title and author are required" None)
     else
       updatedBook ← updateBook id d;
       match updatedBook with
       | None => mret (failure 404 "Book not found" None)
       | Some b =>
           mret (mkResponse 200
                   (mkEnvelope true (Some "Book updated successfully")
                      (Some (PBook b)) None None))
       end)
    (fun error => mret (on_write_error "Error updating book" error)).

(** DELETE /api/books/:id *)
Definition delete_book_route (req : Request) : M Response :=
  try_catch
    (let id := JStr (params_id req) in
     deletedBook ← deleteBook id;
     match deletedBook with
     | None => mret (failure 404 "Book not found" None)
     | Some b =>
         mret (mkResponse 200
                 (mkEnvelope true (Some "Book deleted successfully")
                    (Some (PDeleted b)) None None))
     end)
    (fun error => mret (failure 500 "Error deleting book" (Some error))).

(** The five routes mounted on the router, and the data-access call each one
    awaits. *)
Inductive Route : Type :=
  | GET_books
  | GET_book
  | POST_book
  | PUT_book
  | DELETE_book.

Definition router (r : Route) : Request -> M Response :=
  match r with
  | GET_books => get_books
  | GET_book => get_book
  | POST_book => post_book
  | PUT_book => put_book
  | DELETE_book => delete_book_route
  end.

(** The message of the error a run ended with, if it ended with one. *)
Definition thrown {A} (x : Result A * Store) : option string :=
  match fst x with
  | Throw e => Some e
  | Ok _ => None
  end.

Definition store_failure (r : Route) (req : Request) (st : Store) : option string :=
  match r with
  | GET_books => thrown (getAllBooks st)
  | GET_book => thrown (getBookById (JStr (params_id req)) st)
  | POST_book => thrown (createBook (body_data (body req)) st)
  | PUT_book => thrown (updateBook (JStr (params_id req)) (body_data (body req)) st)
  | DELETE_book => thrown (deleteBook (JStr (params_id req)) st)
  end.

End Engine.

(** ** Vocabulary of the statements below *)

(** The six business fields of a book. *)
Definition business_fields : list string :=
  ["title"; "author"; "isbn"; "published_year"; "genre"; "description"].

(** Inputs typed as the table declares its columns: text for [title] and
    [author]; text, null or absent for [isbn], [genre], [description]; an
    integer, null or absent for [published_year]. *)
Definition is_text (v : jsval) : Prop :=
  match v with JStr _ => True | _ => False end.

Definition text_or_absent (v : jsval) : Prop :=
  match v with JStr _ | JNull | JUndefined => True | _ => False end.

Definition int_or_absent (v : jsval) : Prop :=
  match v with JNum _ | JNull | JUndefined => True | _ => False end.

Definition schema_typed (d : BookData.t) : Prop :=
  is_text (BookData.title d) /\ is_text (BookData.author d) /\
  text_or_absent (BookData.isbn d) /\ int_or_absent (BookData.published_year d) /\
  text_or_absent (BookData.genre d) /\ text_or_absent (BookData.description d).

(** The record that carries the six fields of [d] as they are (null where
    absent) next to an id and two timestamps. *)
Definition record_of (d : BookData.t) (i c u : Z) : Book.t :=
  Book.mk i
    (bind_param (BookData.title d)) (bind_param (BookData.author d))
    (bind_param (BookData.isbn d)) (bind_param (BookData.published_year d))
    (bind_param (BookData.genre d)) (bind_param (BookData.description d))
    c u.

(** Newest first: no row is older than the one that follows it. *)
Definition newer_or_same (x y : Book.t) : Prop :=
  (Book.created_at y <= Book.created_at x)%Z.

(** ** Start-up of [database.js] *)

(** The rows seeded into an empty table. *)
Definition sampleBooks : list BookData.t :=
  [ BookData.mk (JStr "The Great Gatsby") (JStr "F. Scott Fitzgerald")
      (JStr "978-0-7432-7356-5") (JNum 1925) (JStr "Fiction")
      (JStr "A classic American novel");
    BookData.mk (JStr "To Kill a Mockingbird") (JStr "Harper Lee")
      (JStr "978-0-06-112008-4") (JNum 1960) (JStr "Fiction")
      (JStr "A story of racial injustice and childhood");
    BookData.mk (JStr "1984") (JStr "George Orwell")
      (JStr "978-0-452-28423-4") (JNum 1949) (JStr "Dystopian Fiction")
      (JStr "A dystopian social science fiction novel");
    BookData.mk (JStr "Pride and Prejudice") (JStr "Jane Austen")
      (JStr "978-0-14-143951-8") (JNum 1813) (JStr "Romance")
      (JStr "A romantic novel of manners") ].

Section Startup.

Context {affinity : Affinity}.

(** [CREATE TABLE IF NOT EXISTS books (...)]: an existing table is left as it
    is. *)
Definition create_table : M unit :=
  statement (fun st => (Ok tt, st)).

(** [SELECT COUNT( * ) as count FROM books] *)
Definition count_books : M nat :=
  statement (fun st => (Ok (length (books st)), st)).

(** [sampleBooks.forEach(book => stmt.run(...book))] on the prepared INSERT.
    The runs carry no callback: a failing one surfaces as an unhandled error
    and ends the seeding. *)
Fixpoint run_each (l : list BookData.t) : M unit :=
  match l with
  | [] => mret tt
  | d :: l' => _ ← insert_book d; run_each l'
  end.

(** The [db.serialize] block: create the table, count the rows (an error of
    the count is logged and nothing else happens), seed when the count is 0. *)
Definition bootstrap : M unit :=
  _ ← create_table;
  result ← try_catch (count ← count_books; mret (Some count)) (fun _ => mret None);
  match result with
  | None => mret tt
  | Some count => if (count =? 0)%nat then run_each sampleBooks else mret tt
  end.

End Startup.

(** ** The data-access double of the unit tests *)

(** [ORDER BY id DESC]: a stable sort of the table scan on the key. *)
Fixpoint insert_by_id (b : Book.t) (l : list Book.t) : list Book.t :=
  match l with
  | [] => [b]
  | x :: l' =>
      if (Book.id x <=? Book.id b)%Z then b :: l
      else x :: insert_by_id b l'
  end.

Definition order_by_id_desc (l : list Book.t) : list Book.t :=
  foldr insert_by_id [] l.

(** [getAllBooks] of [createTestDbOperations]:
    [SELECT * FROM books ORDER BY id DESC]. *)
Definition test_getAllBooks : M (list Book.t) :=
  statement (fun st => (Ok (order_by_id_desc (books st)), st)).

(** ** The form of the front end *)

(** [input.value || null] *)
Definition value_or_null (value : string) : jsval :=
  if String.eqb value "" then JNull else JStr value.

(** The [formData] object that [handleSubmit] builds from the six inputs and
    sends as the JSON body. *)
Definition formData (title author isbn published_year genre description : string)
  : gmap string jsval :=
  list_to_map
    [("title", JStr title); ("author", JStr author);
     ("isbn", value_or_null isbn);
     ("published_year", value_or_null published_year);
     ("genre", value_or_null genre);
     ("description", value_or_null description)].

(** ** Consistency of the table *)

(** The non-null isbn values of a table. *)
Definition held_isbns (l : list Book.t) : list sqlval :=
  List.filter (fun v => negb (is_null v)) (map Book.isbn l).

Definition id_lt (a b : Book.t) : Prop := (Book.id a < Book.id b)%Z.

(** What the schema promises of a table: keys ascending along the scan (hence
    distinct), none above the AUTOINCREMENT mark, no isbn held twice, title
    and author never null. *)
Definition consistent (st : Store) : Prop :=
  StronglySorted id_lt (books st) /\
  (max_rowid (books st) <= sqlite_sequence st)%Z /\
  NoDup (held_isbns (books st)) /\
  Forall (fun b => is_null (Book.title b) = false /\ is_null (Book.author b) = false)
    (books st).

(** A computation keeps a property of the store, however it ends. *)
Definition preserves {A} (P : Store -> Prop) (m : M A) : Prop :=
  forall st res st', P st -> m st = (res, st') -> P st'.

(** Same table, same AUTOINCREMENT mark, same clock. *)
Definition same_data (a b : Store) : Prop :=
  books a = books b /\ sqlite_sequence a = sqlite_sequence b /\ now_ms a = now_ms b.

(** Requests served one after the other, time passing before each. *)
Fixpoint serve {affinity : Affinity} (l : list (Z * Route * Request)) (st : Store)
  : list (Result Response) * Store :=
  match l with
  | [] => ([], st)
  | (ms, r, req) :: l' =>
      let '(resp, st1) := router r req (tick ms st) in
      let '(rest, st2) := serve l' st1 in
      (resp :: rest, st2)
  end.

(** ** Sample data *)

(** A store that reads and prints decimal numerals. *)
Definition decimal : Affinity :=
  {| int_of_text := decimal_of_text; text_of_int := text_of_decimal |}.

Definition gatsby : Book.t :=
  Book.mk 1 (SText "The Great Gatsby") (SText "F. Scott Fitzgerald")
    (SText "978-0-7432-7356-5") (SInt 1925) (SText "Fiction")
    (SText "A classic American novel") 1700000000 1700000000.

Definition orwell : Book.t :=
  Book.mk 3 (SText "1984") (SText "George Orwell")
    (SText "978-0-452-28423-4") (SInt 1949) (SText "Dystopian Fiction")
    (SText "A dystopian social science fiction novel") 1700000000 1700000060.

(** Two rows, id 2 deleted earlier, clock a little after the last write. *)
Definition library : Store :=
  mkStore [gatsby; orwell] 3 1700000100250 [].

(** The same store about to suffer a disk error. *)
Definition failing_library : Store :=
  set_faults [Some "SQLITE_IOERR: disk I/O error"] library.

Definition empty_store : Store := mkStore [] 0 1700000000000 [].

Definition orwell_again : gmap string jsval :=
  list_to_map [("title", JStr "Nineteen Eighty-Four"); ("author", JStr "George Orwell");
               ("isbn", JStr "978-0-452-28423-4")].

Definition no_title : gmap string jsval :=
  list_to_map [("author", JStr "Author without title")].

Definition first_book : BookData.t :=
  BookData.mk (JStr "First Book") (JStr "Author 1") JUndefined JUndefined JUndefined JUndefined.

Definition second_book : BookData.t :=
  BookData.mk (JStr "Second Book") (JStr "Author 2") JUndefined JUndefined JUndefined JUndefined.

Definition with_client_keys : gmap string jsval :=
  <["id" := JNum 77]> (<["created_at" := JStr "1999-01-01 00:00:00"]>
    (<["updated_at" := JStr "1999-01-01 00:00:00"]> orwell_again)).

Definition revision : BookData.t :=
  BookData.mk (JStr "The Great Gatsby (Annotated)") (JStr "F. Scott Fitzgerald")
    (JStr "978-0-7432-7356-5") (JNum 2004) JNull JUndefined.

Definition revised_gatsby : Book.t :=
  Book.mk 1 (SText "The Great Gatsby (Annotated)") (SText "F. Scott Fitzgerald")
    (SText "978-0-7432-7356-5") (SInt 2004) SNull SNull 1700000000 1700000100.

Definition first_row : Book.t :=
  Book.mk 1 (SText "First Book") (SText "Author 1") SNull SNull SNull SNull
    1700000000 1700000000.

Definition second_row : Book.t :=
  Book.mk 2 (SText "Second Book") (SText "Author 2") SNull SNull SNull SNull
    1700000000 1700000000.

Definition fourth_row : Book.t :=
  Book.mk 4 (SText "First Book") (SText "Author 1") SNull SNull SNull SNull
    1700000100 1700000100.

Definition not_found : Response :=
  mkResponse 404 (mkEnvelope false (Some "Book not found") None None None).

(** A run of requests against the library: a refused duplicate, a deletion
    half a second later, a new book, a revision, a listing. *)
Definition busy_day : list (Z * Route * Request) :=
  [ (0, POST_book, mkRequest "" orwell_again);
    (500, DELETE_book, mkRequest "1" ∅);
    (1500, POST_book, mkRequest "" no_title);
    (0, POST_book,
     mkRequest "" (list_to_map [("title", JStr "Dune"); ("author", JStr "Frank Herbert")]));
    (250, PUT_book, mkRequest "3" orwell_again);
    (0, GET_books, mkRequest "" ∅) ]%Z.

(** An empty store whose second statement to come will fail. *)
Definition flaky_store : Store :=
  set_faults [None; Some "SQLITE_IOERR: disk I/O error"] empty_store.

(** * Properties *)

Section Properties.

Context {affinity : Affinity}.

(** ** Statements on a store with no fault pending *)

Lemma statement_calm {A} (run : M A) (st : Store) :
  faults st = [] -> statement run st = run st.
Proof. intros H. unfold statement. now rewrite H. Qed.

Lemma where_id_true (p : sqlval) (b : Book.t) :
  where_id p b = true <-> aff_int p = SInt (Book.id b).
Proof.
  unfold where_id. destruct (aff_int p) as [|n|s]; split; try discriminate.
  - intros H. apply Z.eqb_eq in H. now subst.
  - intros H. injection H as ->. apply Z.eqb_refl.
Qed.

Lemma find_where_id_none (p : string) (l : list Book.t) :
  (forall n, int_of_text p = Some n -> n ∉ map Book.id l) ->
  List.find (where_id (SText p)) l = None.
Proof.
  intros H. induction l as [|b l IH]; [reflexivity|].
  simpl. destruct (where_id (SText p) b) eqn:E.
  - apply where_id_true in E. simpl in E.
    destruct (int_of_text p) as [n|] eqn:Ep; [|discriminate].
    injection E as ->. exfalso. apply (H _ eq_refl). simpl. left.
  - apply IH. intros n Hn Hin. apply (H n Hn). simpl. now right.
Qed.

(** ** Validation *)

(** What [!v] accepts: an absent or null field, an empty string, [false], 0. *)
Lemma falsy_cases (v : jsval) :
  truthy v = false <->
  v = JUndefined \/ v = JNull \/ v = JStr "" \/ v = JBool false \/ v = JNum 0.
Proof.
  split.
  - destruct v as [| |[|]|n|s]; simpl; intros H; try discriminate; auto.
    + apply negb_false_iff, Z.eqb_eq in H. subst. auto 6.
    + apply negb_false_iff, String.eqb_eq in H. subst. auto.
  - intros [-> | [-> | [-> | [-> | ->]]]]; reflexivity.
Qed.

(** C2: a create or update request whose [title] or [author] is absent, null
    or empty (falsy) is answered 400 "Title and author are required", and the
    store comes back exactly as it was: no statement ran, no pending fault was
    met. *)
Theorem missing_title_or_author_rejected (req : Request) (st : Store) :
  truthy (field "title" (body req)) = false \/
  truthy (field "author" (body req)) = false ->
  post_book req st =
    (Ok (mkResponse 400
           (mkEnvelope false (Some "Title and author are required") None None None)), st) /\
  put_book req st =
    (Ok (mkResponse 400
           (mkEnvelope false (Some "Title and author are required") None None None)), st).
Proof.
  intros H. unfold post_book, put_book, try_catch, body_data. simpl.
  assert (E : negb (truthy (field "title" (body req)))
              || negb (truthy (field "author" (body req))) = true).
  { destruct H as [-> | ->]; simpl; [reflexivity | apply orb_true_r]. }
  rewrite E. split; reflexivity.
Qed.

(** ** Error mapping *)

(** C1: when a validated create (update) request meets a data-access failure,
    the answer is 400 "ISBN already exists" if the error message contains
    'UNIQUE constraint failed', and otherwise 500 with the generic message and
    the raw error text. *)
Theorem write_failure_classified (req : Request) (st st' : Store) (e : string) :
  truthy (field "title" (body req)) = true ->
  truthy (field "author" (body req)) = true ->
  (createBook (body_data (body req)) st = (Throw e, st') ->
   post_book req st =
     (Ok (if includes e "UNIQUE constraint failed"
          then mkResponse 400 (mkEnvelope false (Some "ISBN already exists") None None None)
          else mkResponse 500 (mkEnvelope false (Some "Error creating book") None None (Some e))),
      st')) /\
  (updateBook (JStr (params_id req)) (body_data (body req)) st = (Throw e, st') ->
   put_book req st =
     (Ok (if includes e "UNIQUE constraint failed"
          then mkResponse 400 (mkEnvelope false (Some "ISBN already exists") None None None)
          else mkResponse 500 (mkEnvelope false (Some "Error updating book") None None (Some e))),
      st')).
Proof.
  intros Ht Ha.
  split; intros H; unfold post_book, put_book, try_catch;
    change (BookData.title (body_data (body req))) with (field "title" (body req));
    change (BookData.author (body_data (body req))) with (field "author" (body req));
    rewrite Ht, Ha; simpl; unfold mbind, M_bind; rewrite H;
    unfold mret, M_ret, on_write_error, failure;
    destruct (includes e "UNIQUE constraint failed"); reflexivity.
Qed.

(** ** Lookup of an unknown id *)

(** C9: when no fault is pending and the path value denotes no stored id
    (it is not a number for the store, or no row carries that number),
    GET /api/books/:id answers 404 "Book not found". *)
Theorem unknown_id_is_not_found (p : string) (o : gmap string jsval) (st : Store) :
  faults st = [] ->
  (forall n, int_of_text p = Some n -> n ∉ map Book.id (books st)) ->
  getBookById (JStr p) st = (Ok None, st) /\
  get_book (mkRequest p o) st =
    (Ok (mkResponse 404 (mkEnvelope false (Some "Book not found") None None None)), st).
Proof.
  intros Hf Hid.
  assert (E : getBookById (JStr p) st = (Ok None, st)).
  { unfold getBookById, select_by_id. rewrite statement_calm by assumption.
    simpl. now rewrite find_where_id_none. }
  split; [exact E|].
  unfold get_book, try_catch, mbind, M_bind. simpl. now rewrite E.
Qed.

(** ** No failure escapes a handler *)

(** C7: every route, on every request and every store, ends with a response
    (never with a thrown error); and when the data-access call of the route
    fails, that response is a failure envelope with status 400 or 500. *)
Theorem handlers_never_throw (r : Route) (req : Request) (st : Store) :
  exists (resp : Response) (st' : Store),
    router r req st = (Ok resp, st') /\
    (forall e, store_failure r req st = Some e ->
       success (json resp) = false /\ (status resp = 400 \/ status resp = 500)).
Proof.
  destruct r; unfold router, store_failure, thrown.
  - unfold get_books, try_catch, mbind, M_bind.
    destruct (getAllBooks st) as [[l|e] st']; simpl; eexists _, _; split;
      try reflexivity; intros e0 He; try discriminate; auto.
  - unfold get_book, try_catch, mbind, M_bind.
    destruct (getBookById (JStr (params_id req)) st) as [[[b|]|e] st']; simpl;
      eexists _, _; split; try reflexivity; intros e0 He; try discriminate; auto.
  - unfold post_book, try_catch, mbind, M_bind.
    destruct (negb _ || negb _).
    + simpl. eexists _, _; split; [reflexivity|]. intros; simpl; auto.
    + destruct (createBook (body_data (body req)) st) as [[b|e] st']; simpl;
        eexists _, _; split; try reflexivity; intros e0 He; try discriminate.
      unfold on_write_error. destruct (includes e _); simpl; auto.
  - unfold put_book, try_catch, mbind, M_bind.
    destruct (negb _ || negb _).
    + simpl. eexists _, _; split; [reflexivity|]. intros; simpl; auto.
    + destruct (updateBook _ (body_data (body req)) st) as [[[b|]|e] st']; simpl;
        eexists _, _; split; try reflexivity; intros e0 He; try discriminate.
      unfold on_write_error. destruct (includes e _); simpl; auto.
  - unfold delete_book_route, try_catch, mbind, M_bind.
    destruct (deleteBook (JStr (params_id req)) st) as [[[b|]|e] st']; simpl;
      eexists _, _; split; try reflexivity; intros e0 He; try discriminate; auto.
Qed.

(** ** Delete *)

Lemma getBookById_calm (id : jsval) (st : Store) :
  faults st = [] ->
  getBookById id st = (Ok (List.find (where_id (bind_param id)) (books st)), st).
Proof.
  intros H. unfold getBookById, select_by_id. now rewrite statement_calm.
Qed.

Lemma find_after_delete (p : sqlval) (l : list Book.t) :
  List.find (where_id p) (List.filter (fun b => negb (where_id p b)) l) = None.
Proof.
  induction l as [|b l IH]; [reflexivity|].
  simpl. destruct (where_id p b) eqn:E; simpl; [exact IH|]. now rewrite E.
Qed.

Lemma find_none_filter (p : sqlval) (l : list Book.t) :
  List.find (where_id p) l = None -> List.filter (where_id p) l = [].
Proof.
  induction l as [|b l IH]; [reflexivity|].
  simpl. destruct (where_id p b); [discriminate | exact IH].
Qed.

Lemma find_some_filter (p : sqlval) (l : list Book.t) (b : Book.t) :
  List.find (where_id p) l = Some b ->
  exists rest, List.filter (where_id p) l = b :: rest.
Proof.
  induction l as [|x l IH]; [discriminate|].
  simpl. destruct (where_id p x).
  - intros [= ->]. now eexists.
  - exact IH.
Qed.

(** C3: with no fault pending, deleting an id that [getBookById] finds
    returns that very row (a row of the table), removes exactly the rows with
    that id, leaves a store where [getBookById] finds nothing, and the route
    answers 200 with [data.deletedBook]; deleting an id that [getBookById]
    does not find returns nothing, answers 404 and leaves the store as it
    was. *)
Theorem delete_returns_snapshot (id : jsval) (st : Store) :
  faults st = [] ->
  (forall b, getBookById id st = (Ok (Some b), st) ->
     let st' := set_books (List.filter (fun x => negb (where_id (bind_param id) x)) (books st)) st in
     b ∈ books st /\
     deleteBook id st = (Ok (Some b), st') /\
     getBookById id st' = (Ok None, st') /\
     forall req, JStr (params_id req) = id ->
       delete_book_route req st =
         (Ok (mkResponse 200
                (mkEnvelope true (Some "Book deleted successfully")
                   (Some (PDeleted b)) None None)), st') /\
       get_book req st' =
         (Ok (mkResponse 404 (mkEnvelope false (Some "Book not found") None None None)), st')) /\
  (getBookById id st = (Ok None, st) ->
     deleteBook id st = (Ok None, st) /\
     forall req, JStr (params_id req) = id ->
       delete_book_route req st =
         (Ok (mkResponse 404 (mkEnvelope false (Some "Book not found") None None None)), st)).
Proof.
  intros Hf. split.
  - intros b Hb st'.
    rewrite getBookById_calm in Hb by assumption.
    assert (Hfind : List.find (where_id (bind_param id)) (books st) = Some b) by congruence.
    assert (Hdel : deleteBook id st = (Ok (Some b), st')).
    { unfold deleteBook, mbind, M_bind, select_by_id.
      rewrite statement_calm by assumption. rewrite Hfind.
      unfold delete_book. rewrite statement_calm by assumption. reflexivity. }
    assert (Hget : getBookById id st' = (Ok None, st')).
    { rewrite getBookById_calm by assumption. simpl. now rewrite find_after_delete. }
    split; [|split; [exact Hdel|split; [exact Hget|]]].
    + apply find_some in Hfind as [Hin _]. now apply list_elem_of_In.
    + intros req <-. split.
      * unfold delete_book_route, try_catch, mbind, M_bind. simpl. now rewrite Hdel.
      * unfold get_book, try_catch, mbind, M_bind. simpl.
        unfold mbind, M_bind in Hget. now rewrite Hget.
  - intros Hb.
    rewrite getBookById_calm in Hb by assumption.
    assert (Hfind : List.find (where_id (bind_param id)) (books st) = None) by congruence.
    assert (Hdel : deleteBook id st = (Ok None, st)).
    { unfold deleteBook, mbind, M_bind, select_by_id.
      rewrite statement_calm by assumption. now rewrite Hfind. }
    split; [exact Hdel|].
    intros req <-.
    unfold delete_book_route, try_catch, mbind, M_bind. simpl. now rewrite Hdel.
Qed.

(** ** Update *)

Lemma update_row_miss (d : BookData.t) (ts : Z) (p : sqlval) (l : list Book.t) :
  List.filter (where_id p) l = [] -> map (update_row d ts p) l = l.
Proof.
  induction l as [|b l IH]; [reflexivity|].
  simpl. unfold update_row at 1. destruct (where_id p b); [discriminate|].
  intros H. now rewrite IH.
Qed.

(** C6: with no fault pending, updating an id that [getBookById] does not
    find returns nothing and leaves the store exactly as it was, and the
    route (title and author given) answers 404 "Book not found". *)
Theorem update_unknown_id (id : jsval) (st : Store) :
  faults st = [] ->
  getBookById id st = (Ok None, st) ->
  (forall d, updateBook id d st = (Ok None, st)) /\
  (forall req,
     JStr (params_id req) = id ->
     truthy (field "title" (body req)) = true ->
     truthy (field "author" (body req)) = true ->
     put_book req st =
       (Ok (mkResponse 404 (mkEnvelope false (Some "Book not found") None None None)), st)).
Proof.
  intros Hf Hb.
  rewrite getBookById_calm in Hb by assumption.
  assert (Hfind : List.find (where_id (bind_param id)) (books st) = None) by congruence.
  assert (Hupd : forall d, updateBook id d st = (Ok None, st)).
  { intros d. unfold updateBook, mbind, M_bind, update_book.
    rewrite statement_calm by assumption.
    now rewrite (find_none_filter _ _ Hfind). }
  split; [exact Hupd|].
  intros req <- Ht Ha.
  unfold put_book, try_catch.
  change (BookData.title (body_data (body req))) with (field "title" (body req)).
  change (BookData.author (body_data (body req))) with (field "author" (body req)).
  rewrite Ht, Ha. simpl. unfold mbind, M_bind. now rewrite Hupd.
Qed.

Lemma statement_ok {A} (run : M A) (st st' : Store) (a : A) :
  statement run st = (Ok a, st') ->
  exists f, run (set_faults f st) = (Ok a, st').
Proof.
  unfold statement. destruct (faults st) as [|[e|] rest] eqn:E.
  - intros H. exists []. destruct st as [l q n f]. simpl in E. now subst.
  - discriminate.
  - intros H. now exists rest.
Qed.

Lemma stored_typed (d : BookData.t) (i c u : Z) :
  schema_typed d -> stored d i c u = record_of d i c u.
Proof.
  destruct d as [t a n y g s]. unfold schema_typed, stored, record_of. simpl.
  intros (Ht & Ha & Hn & Hy & Hg & Hs).
  destruct t, a, n, y, g, s; simpl in *; try contradiction; reflexivity.
Qed.

Lemma truthy_stored_text (v : jsval) :
  truthy v = true -> is_null (aff_text (bind_param v)) = false.
Proof. destruct v; simpl; try discriminate; reflexivity. Qed.

Lemma where_id_update_row (d : BookData.t) (ts : Z) (p : sqlval) (b : Book.t) :
  where_id p (update_row d ts p b) = where_id p b.
Proof.
  unfold update_row. destruct (where_id p b) eqn:E; [|exact E].
  unfold where_id in *. now destruct (aff_int p).
Qed.

Lemma find_update_row (d : BookData.t) (ts : Z) (p : sqlval) (l : list Book.t) :
  List.find (where_id p) (map (update_row d ts p) l) =
  update_row d ts p <$> List.find (where_id p) l.
Proof.
  induction l as [|b l IH]; [reflexivity|].
  simpl. rewrite where_id_update_row.
  destruct (where_id p b); [reflexivity | exact IH].
Qed.

(** An update does succeed: no fault pending, the id found, title and author
    non-empty and the new isbn held by no other row. *)
Lemma updateBook_calm (id : jsval) (d : BookData.t) (st : Store) (b : Book.t) :
  faults st = [] ->
  List.find (where_id (bind_param id)) (books st) = Some b ->
  truthy (BookData.title d) = true ->
  truthy (BookData.author d) = true ->
  isbn_taken (aff_text (bind_param (BookData.isbn d)))
    (List.filter (fun x => negb (where_id (bind_param id) x)) (books st)) = false ->
  updateBook id d st =
    (Ok (Some (stored d (Book.id b) (Book.created_at b) (CURRENT_TIMESTAMP st))),
     set_books (map (update_row d (CURRENT_TIMESTAMP st) (bind_param id)) (books st)) st).
Proof.
  intros Hf Hfind Ht Ha Hisbn.
  unfold updateBook, mbind, M_bind, update_book.
  rewrite statement_calm by assumption.
  destruct (find_some_filter _ _ _ Hfind) as [rest ->].
  change (Book.title (stored d 0 0 0)) with (aff_text (bind_param (BookData.title d))).
  change (Book.author (stored d 0 0 0)) with (aff_text (bind_param (BookData.author d))).
  change (Book.isbn (stored d 0 0 0)) with (aff_text (bind_param (BookData.isbn d))).
  rewrite (truthy_stored_text _ Ht), (truthy_stored_text _ Ha), Hisbn.
  simpl. unfold select_by_id. rewrite statement_calm by assumption.
  simpl. rewrite find_update_row, Hfind. simpl.
  unfold update_row. apply find_some in Hfind as [_ ->]. reflexivity.
Qed.

(** C4: after a successful update the table has the same rows at the same
    positions, except that each row matching the id now holds the six supplied
    values (as the columns store them), its old [id] and [created_at], and
    the current timestamp as [updated_at]; rows with another id are unchanged,
    no row is added or removed, and the returned record is the refreshed row.
    For inputs typed as the columns are, the stored values are the supplied
    ones themselves. *)
Theorem update_overwrites_one_row
    (id : jsval) (d : BookData.t) (st st' : Store) (r : Book.t) :
  updateBook id d st = (Ok (Some r), st') ->
  length (books st') = length (books st) /\
  sqlite_sequence st' = sqlite_sequence st /\
  (forall (i : nat) (b : Book.t), books st !! i = Some b ->
     books st' !! i = Some
       (if where_id (bind_param id) b then
          Book.mk (Book.id b)
            (aff_text (bind_param (BookData.title d)))
            (aff_text (bind_param (BookData.author d)))
            (aff_text (bind_param (BookData.isbn d)))
            (aff_int (bind_param (BookData.published_year d)))
            (aff_text (bind_param (BookData.genre d)))
            (aff_text (bind_param (BookData.description d)))
            (Book.created_at b) (CURRENT_TIMESTAMP st)
        else b)) /\
  List.find (where_id (bind_param id)) (books st') = Some r /\
  (schema_typed d ->
   forall (i : nat) (b : Book.t), books st !! i = Some b ->
     where_id (bind_param id) b = true ->
     books st' !! i =
       Some (record_of d (Book.id b) (Book.created_at b) (CURRENT_TIMESTAMP st))).
Proof.
  intros H. unfold updateBook, mbind, M_bind in H.
  destruct (update_book d (bind_param id) st) as [[n|e] s1] eqn:E1; [|discriminate].
  destruct (n =? 0)%nat eqn:En; [discriminate|].
  unfold select_by_id in H. apply statement_ok in H as [f2 H].
  injection H as Hr Hst'.
  unfold update_book in E1. apply statement_ok in E1 as [f1 E1].
  simpl in E1.
  destruct (List.filter (where_id (bind_param id)) (books st)) as [|h hits] eqn:Eh.
  { injection E1 as <- _. discriminate. }
  destruct (is_null _); [discriminate|].
  destruct (is_null _); [discriminate|].
  destruct (isbn_taken _ _); [discriminate|].
  injection E1 as _ <-. subst st'. simpl in *.
  change (CURRENT_TIMESTAMP (set_faults f1 st)) with (CURRENT_TIMESTAMP st) in *.
  assert (Hpt : forall (i : nat) (b : Book.t), books st !! i = Some b ->
            map (update_row d (CURRENT_TIMESTAMP st) (bind_param id)) (books st) !! i =
            Some (update_row d (CURRENT_TIMESTAMP st) (bind_param id) b)).
  { intros i b Hb. rewrite list_lookup_fmap, Hb. reflexivity. }
  split; [apply length_map|]. split; [reflexivity|].
  split; [|split; [exact Hr|]].
  - intros i b Hb. rewrite (Hpt i b Hb). unfold update_row, stored.
    destruct (where_id (bind_param id) b); reflexivity.
  - intros Hty i b Hb Hm. rewrite (Hpt i b Hb). unfold update_row.
    rewrite Hm. now rewrite stored_typed.
Qed.

(** ** Create *)

Lemma max_rowid_bound (l : list Book.t) (b : Book.t) :
  b ∈ l -> (Book.id b <= max_rowid l)%Z.
Proof.
  induction l as [|x l IH]; intros Hin.
  - inversion Hin.
  - simpl. apply elem_of_cons in Hin as [-> | Hin]; [lia|].
    specialize (IH Hin). lia.
Qed.

Lemma find_fresh (l : list Book.t) (r : Book.t) :
  (forall b, b ∈ l -> (Book.id b < Book.id r)%Z) ->
  List.find (where_id (SInt (Book.id r))) (l ++ [r]) = Some r.
Proof.
  induction l as [|x l IH]; intros H; simpl.
  - unfold where_id. simpl. now rewrite Z.eqb_refl.
  - unfold where_id at 1. simpl.
    assert (Hx : (Book.id x < Book.id r)%Z) by (apply H; left).
    destruct (Z.eqb_spec (Book.id x) (Book.id r)); [lia|].
    apply IH. intros b Hb. apply H. now right.
Qed.

Lemma createBook_calm (d : BookData.t) (st : Store) :
  faults st = [] ->
  truthy (BookData.title d) = true ->
  truthy (BookData.author d) = true ->
  isbn_taken (aff_text (bind_param (BookData.isbn d))) (books st) = false ->
  createBook d st =
    (Ok (Some (stored d (next_rowid st) (CURRENT_TIMESTAMP st) (CURRENT_TIMESTAMP st))),
     mkStore
       (books st ++ [stored d (next_rowid st) (CURRENT_TIMESTAMP st) (CURRENT_TIMESTAMP st)])
       (next_rowid st) (now_ms st) []).
Proof.
  intros Hf Ht Ha Hisbn.
  set (r := stored d (next_rowid st) (CURRENT_TIMESTAMP st) (CURRENT_TIMESTAMP st)).
  assert (Hfind : List.find (where_id (SInt (next_rowid st))) (books st ++ [r]) = Some r).
  { apply (find_fresh (books st) r). intros b Hb.
    apply max_rowid_bound in Hb. subst r. simpl. unfold next_rowid. lia. }
  unfold createBook, mbind, M_bind, insert_book.
  rewrite statement_calm by assumption.
  change (Book.title (stored d (next_rowid st) (CURRENT_TIMESTAMP st) (CURRENT_TIMESTAMP st)))
    with (aff_text (bind_param (BookData.title d))).
  change (Book.author (stored d (next_rowid st) (CURRENT_TIMESTAMP st) (CURRENT_TIMESTAMP st)))
    with (aff_text (bind_param (BookData.author d))).
  change (Book.isbn (stored d (next_rowid st) (CURRENT_TIMESTAMP st) (CURRENT_TIMESTAMP st)))
    with (aff_text (bind_param (BookData.isbn d))).
  rewrite (truthy_stored_text _ Ht), (truthy_stored_text _ Ha), Hisbn.
  fold r. rewrite Hf. unfold select_by_id.
  rewrite statement_calm by reflexivity. simpl. now rewrite Hfind.
Qed.

(** C8: with no fault pending, creating a book whose title and author are
    non-empty and whose isbn is not yet held succeeds; the record it returns
    carries a fresh id (larger than every stored id), the current timestamp
    twice and the six fields as the columns store them; [getBookById] on that
    id then returns the same record, and POST answers 201 with it.  For
    inputs typed as the columns are, the six fields are the supplied values
    themselves, null where absent. *)
Theorem create_then_get (d : BookData.t) (st : Store) :
  faults st = [] ->
  truthy (BookData.title d) = true ->
  truthy (BookData.author d) = true ->
  isbn_taken (aff_text (bind_param (BookData.isbn d))) (books st) = false ->
  let r := stored d (next_rowid st) (CURRENT_TIMESTAMP st) (CURRENT_TIMESTAMP st) in
  exists st',
    createBook d st = (Ok (Some r), st') /\
    getBookById (JNum (Book.id r)) st' = (Ok (Some r), st') /\
    books st' = books st ++ [r] /\
    (forall b, b ∈ books st -> (Book.id b < Book.id r)%Z) /\
    (forall req, body_data (body req) = d ->
       post_book req st =
         (Ok (mkResponse 201
                (mkEnvelope true (Some "Book created successfully")
                   (Some (PBook r)) None None)), st')) /\
    (schema_typed d ->
     r = record_of d (next_rowid st) (CURRENT_TIMESTAMP st) (CURRENT_TIMESTAMP st)).
Proof.
  intros Hf Ht Ha Hisbn r.
  pose proof (createBook_calm d st Hf Ht Ha Hisbn) as Hcreate. fold r in Hcreate.
  assert (Hfresh : forall b, b ∈ books st -> (Book.id b < Book.id r)%Z).
  { intros b Hb. apply max_rowid_bound in Hb. subst r. simpl. unfold next_rowid. lia. }
  eexists. split; [exact Hcreate|].
  split; [|split; [reflexivity|split; [exact Hfresh|split]]].
  - rewrite getBookById_calm by reflexivity. cbn [books bind_param].
    now rewrite (find_fresh (books st) r Hfresh).
  - intros req Hd. unfold post_book, try_catch. rewrite Hd, Ht, Ha. simpl.
    unfold mbind, M_bind. now rewrite Hcreate.
  - intros Hty. subst r. now apply stored_typed.
Qed.

(** ** Fields of the body that are not business fields *)

(** C10: two bodies that agree on the six business fields get the same answer
    and leave the same store, on POST and on PUT alike: whatever else a body
    carries ([id], [created_at], [updated_at], ...) has no effect. *)
Theorem other_body_fields_ignored (p : string) (o1 o2 : gmap string jsval) (st : Store) :
  Forall (fun k => o1 !! k = o2 !! k) business_fields ->
  post_book (mkRequest p o1) st = post_book (mkRequest p o2) st /\
  put_book (mkRequest p o1) st = put_book (mkRequest p o2) st.
Proof.
  intros H.
  assert (E : body_data o1 = body_data o2).
  { unfold business_fields in H.
    repeat match goal with
           | H : Forall _ (_ :: _) |- _ => apply Forall_cons in H as [? H]
           end.
    unfold body_data, field. congruence. }
  unfold post_book, put_book. cbn [body params_id]. now rewrite E.
Qed.

(** ** Listing *)

Lemma insert_desc_perm (b : Book.t) (l : list Book.t) :
  Permutation (insert_desc b l) (b :: l).
Proof.
  induction l as [|x l IH]; simpl; [reflexivity|].
  destruct (Book.created_at x <=? Book.created_at b)%Z; [reflexivity|].
  rewrite IH. apply perm_swap.
Qed.

Lemma order_by_perm (l : list Book.t) :
  Permutation (order_by_created_at_desc l) l.
Proof.
  induction l as [|b l IH]; simpl; [reflexivity|].
  rewrite insert_desc_perm. now constructor.
Qed.

Lemma insert_desc_hd (b x : Book.t) (l : list Book.t) :
  newer_or_same x b -> HdRel newer_or_same x l -> HdRel newer_or_same x (insert_desc b l).
Proof.
  intros Hxb Hl. destruct l as [|y l]; simpl; [now constructor|].
  destruct (Book.created_at y <=? Book.created_at b)%Z; constructor; [exact Hxb|].
  now inversion Hl.
Qed.

Lemma insert_desc_sorted (b : Book.t) (l : list Book.t) :
  Sorted newer_or_same l -> Sorted newer_or_same (insert_desc b l).
Proof.
  induction l as [|x l IH]; intros Hs; simpl.
  - repeat constructor.
  - destruct (Z.leb_spec (Book.created_at x) (Book.created_at b)) as [Hle|Hlt].
    + constructor; [exact Hs|]. now constructor.
    + inversion Hs as [|? ? Hs' Hhd]; subst.
      constructor; [now apply IH|].
      apply insert_desc_hd; [unfold newer_or_same; lia | exact Hhd].
Qed.

Lemma order_by_sorted (l : list Book.t) :
  Sorted newer_or_same (order_by_created_at_desc l).
Proof.
  induction l as [|b l IH]; simpl; [constructor|].
  now apply insert_desc_sorted.
Qed.

(** The part of the listing contract that holds of [getAllBooks]: with no
    fault pending it returns every row once, no row older than the one after
    it, the store untouched; nothing when the table is empty. *)
Lemma getAllBooks_newest_first (st : Store) :
  faults st = [] ->
  exists l,
    getAllBooks st = (Ok l, st) /\
    Permutation l (books st) /\
    Sorted newer_or_same l /\
    (books st = [] -> l = []).
Proof.
  intros Hf. exists (order_by_created_at_desc (books st)).
  unfold getAllBooks, select_all. rewrite statement_calm by assumption.
  split; [reflexivity|]. split; [apply order_by_perm|].
  split; [apply order_by_sorted|]. now intros ->.
Qed.

(** Two books created one after the other on an empty table: the later one
    is listed first exactly when the clock reached a later second. *)
Lemma listing_of_two_creates (d1 d2 : BookData.t) (st : Store) (ms : Z) :
  faults st = [] ->
  books st = [] ->
  truthy (BookData.title d1) = true -> truthy (BookData.author d1) = true ->
  truthy (BookData.title d2) = true -> truthy (BookData.author d2) = true ->
  aff_text (bind_param (BookData.isbn d2)) = SNull \/
  aff_text (bind_param (BookData.isbn d2)) <> aff_text (bind_param (BookData.isbn d1)) ->
  exists a b s1 s2,
    createBook d1 st = (Ok (Some a), s1) /\
    createBook d2 (tick ms s1) = (Ok (Some b), s2) /\
    getAllBooks s2 =
      (Ok (if (CURRENT_TIMESTAMP st <? CURRENT_TIMESTAMP (tick ms st))%Z
           then [b; a] else [a; b]), s2).
Proof.
  intros Hf He Ht1 Ha1 Ht2 Ha2 Hisbn.
  assert (H1 := createBook_calm d1 st Hf Ht1 Ha1).
  rewrite He in H1.
  specialize (H1 (andb_false_r _)).
  set (a := stored d1 (next_rowid st) (CURRENT_TIMESTAMP st) (CURRENT_TIMESTAMP st)) in *.
  set (s1 := mkStore ([] ++ [a]) (next_rowid st) (now_ms st) []) in *.
  assert (H2 := createBook_calm d2 (tick ms s1) eq_refl Ht2 Ha2).
  assert (Hfree : isbn_taken (aff_text (bind_param (BookData.isbn d2)))
                    (books (tick ms s1)) = false).
  { unfold isbn_taken. simpl. destruct Hisbn as [-> | Hne]; [reflexivity|].
    rewrite bool_decide_eq_false_2 by congruence.
    now rewrite orb_false_r, andb_false_r. }
  specialize (H2 Hfree).
  eexists _, _, _, _. split; [exact H1|]. split; [exact H2|].
  unfold getAllBooks, select_all. rewrite statement_calm by reflexivity.
  simpl. change (CURRENT_TIMESTAMP (tick ms s1)) with (CURRENT_TIMESTAMP (tick ms st)).
  rewrite Z.leb_antisym. now destruct (_ <? _)%Z.
Qed.

End Properties.

(** ** The properties at work on the sample library *)

Lemma missing_title_or_author_rejected_witness :
  post_book (affinity := decimal) (mkRequest "" no_title) failing_library =
    (Ok (mkResponse 400
           (mkEnvelope false (Some "Title and author are required") None None None)),
     failing_library) /\
  put_book (affinity := decimal) (mkRequest "1" no_title) failing_library =
    (Ok (mkResponse 400
           (mkEnvelope false (Some "Title and author are required") None None None)),
     failing_library).
Proof.
  split.
  - apply (missing_title_or_author_rejected (affinity := decimal) (mkRequest "" no_title)).
    left. vm_compute. reflexivity.
  - apply (missing_title_or_author_rejected (affinity := decimal) (mkRequest "1" no_title)).
    left. vm_compute. reflexivity.
Defined.

Lemma write_failure_classified_witness :
  post_book (affinity := decimal) (mkRequest "" orwell_again) library =
    (Ok (mkResponse 400 (mkEnvelope false (Some "ISBN already exists") None None None)),
     library) /\
  post_book (affinity := decimal) (mkRequest "" orwell_again) failing_library =
    (Ok (mkResponse 500
           (mkEnvelope false (Some "Error creating book") None None
              (Some "SQLITE_IOERR: disk I/O error"))),
     library) /\
  put_book (affinity := decimal) (mkRequest "1" orwell_again) library =
    (Ok (mkResponse 400 (mkEnvelope false (Some "ISBN already exists") None None None)),
     library) /\
  put_book (affinity := decimal) (mkRequest "1" orwell_again) failing_library =
    (Ok (mkResponse 500
           (mkEnvelope false (Some "Error updating book") None None
              (Some "SQLITE_IOERR: disk I/O error"))),
     library).
Proof.
  split; [|split; [|split]].
  - apply (proj1 (write_failure_classified (affinity := decimal)
             (mkRequest "" orwell_again) library library
             "SQLITE_CONSTRAINT: UNIQUE constraint failed: books.isbn" eq_refl eq_refl)).
    vm_compute. reflexivity.
  - apply (proj1 (write_failure_classified (affinity := decimal)
             (mkRequest "" orwell_again) failing_library library
             "SQLITE_IOERR: disk I/O error" eq_refl eq_refl)).
    vm_compute. reflexivity.
  - apply (proj2 (write_failure_classified (affinity := decimal)
             (mkRequest "1" orwell_again) library library
             "SQLITE_CONSTRAINT: UNIQUE constraint failed: books.isbn" eq_refl eq_refl)).
    vm_compute. reflexivity.
  - apply (proj2 (write_failure_classified (affinity := decimal)
             (mkRequest "1" orwell_again) failing_library library
             "SQLITE_IOERR: disk I/O error" eq_refl eq_refl)).
    vm_compute. reflexivity.
Defined.

Lemma unknown_id_is_not_found_witness :
  get_book (affinity := decimal) (mkRequest "invalid-id" ∅) library = (Ok not_found, library) /\
  get_book (affinity := decimal) (mkRequest "99999" ∅) library = (Ok not_found, library) /\
  get_book (affinity := decimal) (mkRequest "2" ∅) library = (Ok not_found, library).
Proof.
  split; [|split].
  - apply (unknown_id_is_not_found (affinity := decimal) "invalid-id" ∅ library eq_refl).
    intros n H. vm_compute in H. discriminate.
  - apply (unknown_id_is_not_found (affinity := decimal) "99999" ∅ library eq_refl).
    intros n H. vm_compute in H. injection H as <-.
    intros Hin. repeat (apply elem_of_cons in Hin as [Hin|Hin]; [discriminate|]).
    inversion Hin.
  - apply (unknown_id_is_not_found (affinity := decimal) "2" ∅ library eq_refl).
    intros n H. vm_compute in H. injection H as <-.
    intros Hin. repeat (apply elem_of_cons in Hin as [Hin|Hin]; [discriminate|]).
    inversion Hin.
Defined.

Lemma handlers_never_throw_witness :
  exists (resp : Response) (st' : Store),
    router (affinity := decimal) DELETE_book (mkRequest "3" ∅) failing_library = (Ok resp, st') /\
    success (json resp) = false /\ (status resp = 400 \/ status resp = 500).
Proof.
  destruct (handlers_never_throw (affinity := decimal) DELETE_book (mkRequest "3" ∅)
              failing_library) as (resp & st' & Hrun & Hfail).
  exists resp, st'. split; [exact Hrun|].
  apply (Hfail "SQLITE_IOERR: disk I/O error"). vm_compute. reflexivity.
Defined.

Lemma delete_returns_snapshot_witness :
  deleteBook (affinity := decimal) (JStr "3") library =
    (Ok (Some orwell), set_books [gatsby] library) /\
  getBookById (affinity := decimal) (JStr "3") (set_books [gatsby] library) =
    (Ok None, set_books [gatsby] library) /\
  deleteBook (affinity := decimal) (JStr "2") library = (Ok None, library) /\
  delete_book_route (affinity := decimal) (mkRequest "2" ∅) library = (Ok not_found, library).
Proof.
  destruct (delete_returns_snapshot (affinity := decimal) (JStr "3") library eq_refl)
    as [Hfound _].
  destruct (Hfound orwell) as (_ & Hdel & Hget & _); [vm_compute; reflexivity|].
  destruct (delete_returns_snapshot (affinity := decimal) (JStr "2") library eq_refl)
    as [_ Habsent].
  destruct Habsent as [Hnone Hroute]; [vm_compute; reflexivity|].
  split; [exact Hdel|]. split; [exact Hget|]. split; [exact Hnone|].
  exact (Hroute (mkRequest "2" ∅) eq_refl).
Defined.

Lemma update_unknown_id_witness :
  updateBook (affinity := decimal) (JStr "2") revision library = (Ok None, library) /\
  put_book (affinity := decimal) (mkRequest "2" orwell_again) library = (Ok not_found, library).
Proof.
  destruct (update_unknown_id (affinity := decimal) (JStr "2") library eq_refl)
    as [Hdal Hroute]; [vm_compute; reflexivity|].
  split; [apply Hdal|].
  apply (Hroute (mkRequest "2" orwell_again) eq_refl); vm_compute; reflexivity.
Defined.

Lemma update_overwrites_one_row_witness :
  exists st',
    updateBook (affinity := decimal) (JStr "1") revision library =
      (Ok (Some revised_gatsby), st') /\
    books st' !! 0%nat = Some revised_gatsby /\
    books st' !! 1%nat = Some orwell /\
    length (books st') = 2%nat.
Proof.
  exists (set_books [revised_gatsby; orwell] library).
  assert (Hrun : updateBook (affinity := decimal) (JStr "1") revision library =
                 (Ok (Some revised_gatsby), set_books [revised_gatsby; orwell] library))
    by (vm_compute; reflexivity).
  destruct (update_overwrites_one_row (affinity := decimal) _ _ _ _ _ Hrun)
    as (Hlen & _ & Hrows & _ & Htyped).
  split; [exact Hrun|]. split; [|split; [|exact Hlen]].
  - apply (Htyped ltac:(vm_compute; tauto) 0%nat gatsby eq_refl). vm_compute. reflexivity.
  - exact (Hrows 1%nat orwell eq_refl).
Defined.

Lemma create_then_get_witness :
  exists st',
    createBook (affinity := decimal) first_book library = (Ok (Some fourth_row), st') /\
    getBookById (affinity := decimal) (JNum 4) st' = (Ok (Some fourth_row), st') /\
    books st' = [gatsby; orwell; fourth_row].
Proof.
  destruct (create_then_get (affinity := decimal) first_book library eq_refl eq_refl eq_refl
              eq_refl) as (st' & Hcreate & Hget & Hbooks & _).
  exists st'. split; [exact Hcreate|]. split; [exact Hget | exact Hbooks].
Defined.

Lemma other_body_fields_ignored_witness :
  post_book (affinity := decimal) (mkRequest "" with_client_keys) empty_store =
  post_book (affinity := decimal) (mkRequest "" orwell_again) empty_store /\
  put_book (affinity := decimal) (mkRequest "3" with_client_keys) library =
  put_book (affinity := decimal) (mkRequest "3" orwell_again) library.
Proof.
  assert (H : Forall (fun k => with_client_keys !! k = orwell_again !! k) business_fields)
    by (repeat constructor; vm_compute; reflexivity).
  split.
  - exact (proj1 (other_body_fields_ignored (affinity := decimal) "" _ _ empty_store H)).
  - exact (proj2 (other_body_fields_ignored (affinity := decimal) "3" _ _ library H)).
Defined.

(** ** Two books created within one second *)

(** C5: on an empty table, "First Book" is created, 100 ms pass, "Second Book"
    is created: the clock moved strictly forward, both rows carry the same
    [created_at], and the listing puts the first book first. *)
Theorem listing_within_one_second :
  exists s1 s2,
    createBook (affinity := decimal) first_book empty_store = (Ok (Some first_row), s1) /\
    createBook (affinity := decimal) second_book (tick 100 s1) = (Ok (Some second_row), s2) /\
    (now_ms s1 < now_ms (tick 100 s1))%Z /\
    Book.created_at first_row = Book.created_at second_row /\
    getAllBooks s2 = (Ok [first_row; second_row], s2).
Proof.
  eexists _, _. split; [vm_compute; reflexivity|].
  split; [vm_compute; reflexivity|].
  split; [vm_compute; reflexivity|].
  split; vm_compute; reflexivity.
Qed.

(** * Further properties of the handlers, the start-up and the test double *)

Section Coverage.

Context {affinity : Affinity}.

(** ** Computations that keep a property of the store *)

Lemma preserves_ret {A} (P : Store -> Prop) (a : A) : preserves P (mret a).
Proof. intros st res st' HP [= _ <-]. exact HP. Qed.

Lemma preserves_bind {A B} (P : Store -> Prop) (m : M A) (f : A -> M B) :
  preserves P m -> (forall a, preserves P (f a)) -> preserves P (m ≫= f).
Proof.
  intros Hm Hf st res st' HP. unfold mbind, M_bind.
  destruct (m st) as [[a|e] s1] eqn:E.
  - apply (Hf a). exact (Hm _ _ _ HP E).
  - intros [= _ <-]. exact (Hm _ _ _ HP E).
Qed.

Lemma preserves_try_catch {A} (P : Store -> Prop) (m : M A) (h : string -> M A) :
  preserves P m -> (forall e, preserves P (h e)) -> preserves P (try_catch m h).
Proof.
  intros Hm Hh st res st' HP. unfold try_catch.
  destruct (m st) as [[a|e] s1] eqn:E.
  - intros [= _ <-]. exact (Hm _ _ _ HP E).
  - apply (Hh e). exact (Hm _ _ _ HP E).
Qed.

Lemma preserves_statement {A} (P : Store -> Prop) (run : M A) :
  (forall f st, P st -> P (set_faults f st)) ->
  preserves P run -> preserves P (statement run).
Proof.
  intros Hf Hrun st res st' HP. unfold statement.
  destruct (faults st) as [|[e|] rest].
  - apply Hrun, HP.
  - intros [= _ <-]. apply Hf, HP.
  - apply Hrun, Hf, HP.
Qed.

Lemma preserves_if {A} (P : Store -> Prop) (c : bool) (m1 m2 : M A) :
  preserves P m1 -> preserves P m2 -> preserves P (if c then m1 else m2).
Proof. now destruct c. Qed.

(** ** The table stays consistent *)

Lemma max_rowid_nonneg (l : list Book.t) : (0 <= max_rowid l)%Z.
Proof. induction l as [|b l IH]; simpl; lia. Qed.

Lemma max_rowid_snoc (l : list Book.t) (r : Book.t) :
  max_rowid (l ++ [r]) = Z.max (max_rowid l) (Z.max (Book.id r) 0).
Proof. induction l as [|b l IH]; simpl; [lia|]. rewrite IH. lia. Qed.

Lemma sorted_snoc (l : list Book.t) (r : Book.t) :
  StronglySorted id_lt l -> Forall (fun b => id_lt b r) l ->
  StronglySorted id_lt (l ++ [r]).
Proof.
  induction l as [|b l IH]; intros Hs Hall; simpl.
  - repeat constructor.
  - inversion Hs as [|? ? Hs' Hb]; subst. inversion Hall as [|? ? Hbr Hall']; subst.
    constructor; [now apply IH|].
    apply Forall_app. split; [exact Hb|]. now constructor.
Qed.

Lemma sorted_filter (g : Book.t -> bool) (l : list Book.t) :
  StronglySorted id_lt l -> StronglySorted id_lt (List.filter g l).
Proof.
  induction l as [|b l IH]; intros Hs; simpl; [constructor|].
  inversion Hs as [|? ? Hs' Hb]; subst.
  destruct (g b); [|now apply IH].
  constructor; [now apply IH|].
  rewrite Forall_forall in Hb |- *. intros x Hx. apply Hb.
  apply list_elem_of_In in Hx. apply filter_In in Hx as [Hx _].
  now apply list_elem_of_In.
Qed.

Lemma sorted_same_ids (f : Book.t -> Book.t) (l : list Book.t) :
  (forall b, Book.id (f b) = Book.id b) ->
  StronglySorted id_lt l -> StronglySorted id_lt (map f l).
Proof.
  intros Hid. induction l as [|b l IH]; intros Hs; simpl; [constructor|].
  inversion Hs as [|? ? Hs' Hb]; subst.
  constructor; [now apply IH|].
  rewrite Forall_forall in Hb |- *. intros x Hx.
  apply list_elem_of_fmap in Hx as (y & -> & Hy).
  unfold id_lt. rewrite !Hid. now apply Hb.
Qed.

Lemma max_rowid_same_ids (f : Book.t -> Book.t) (l : list Book.t) :
  (forall b, Book.id (f b) = Book.id b) -> max_rowid (map f l) = max_rowid l.
Proof.
  intros Hid. induction l as [|b l IH]; simpl; [reflexivity|]. now rewrite Hid, IH.
Qed.

Lemma max_rowid_filter (g : Book.t -> bool) (l : list Book.t) :
  (max_rowid (List.filter g l) <= max_rowid l)%Z.
Proof.
  induction l as [|b l IH]; simpl; [lia|]. destruct (g b); simpl; lia.
Qed.

Lemma update_row_id (d : BookData.t) (ts : Z) (p : sqlval) (b : Book.t) :
  Book.id (update_row d ts p b) = Book.id b.
Proof. unfold update_row. now destruct (where_id p b). Qed.

Lemma held_snoc (l : list Book.t) (r : Book.t) :
  held_isbns (l ++ [r]) =
  held_isbns l ++ (if is_null (Book.isbn r) then [] else [Book.isbn r]).
Proof.
  unfold held_isbns. rewrite map_app, List.filter_app. simpl.
  now destruct (is_null (Book.isbn r)).
Qed.

Lemma isbn_free_not_held (v : sqlval) (l : list Book.t) :
  isbn_taken v l = false -> v ∉ held_isbns l.
Proof.
  unfold isbn_taken, held_isbns. intros H Hin.
  apply list_elem_of_In, filter_In in Hin as [Hin Hnn].
  rewrite Hnn in H. simpl in H.
  apply in_map_iff in Hin as (b & Hb & Hin).
  assert (Hex : existsb (fun b => bool_decide (Book.isbn b = v)) l = true).
  { apply existsb_exists. exists b. split; [exact Hin|]. now apply bool_decide_eq_true. }
  congruence.
Qed.

Lemma isbn_held_taken (v : sqlval) (l : list Book.t) :
  v ∈ held_isbns l -> isbn_taken v l = true.
Proof.
  intros Hin. destruct (isbn_taken v l) eqn:E; [reflexivity|].
  now apply isbn_free_not_held in E.
Qed.

Lemma held_filter_incl (g : Book.t -> bool) (l : list Book.t) (v : sqlval) :
  v ∈ held_isbns (List.filter g l) -> v ∈ held_isbns l.
Proof.
  unfold held_isbns. intros Hin.
  apply list_elem_of_In, filter_In in Hin as [Hin Hnn].
  apply in_map_iff in Hin as (b & Hb & Hin). apply filter_In in Hin as [Hin _].
  apply list_elem_of_In, filter_In. split; [|exact Hnn].
  apply in_map_iff. now exists b.
Qed.

Lemma held_cons (b : Book.t) (l : list Book.t) :
  held_isbns (b :: l) =
  (if is_null (Book.isbn b) then [] else [Book.isbn b]) ++ held_isbns l.
Proof. unfold held_isbns. simpl. now destruct (is_null (Book.isbn b)). Qed.

Lemma nodup_held_filter (g : Book.t -> bool) (l : list Book.t) :
  NoDup (held_isbns l) -> NoDup (held_isbns (List.filter g l)).
Proof.
  induction l as [|b l IH]; intros Hnd; simpl; [exact Hnd|].
  rewrite held_cons in Hnd.
  destruct (is_null (Book.isbn b)) eqn:En; simpl in Hnd.
  - destruct (g b); [rewrite held_cons, En|]; now apply IH.
  - apply NoDup_cons in Hnd as [Hnot Hnd].
    destruct (g b); [|now apply IH].
    rewrite held_cons, En. simpl. apply NoDup_cons. split; [|now apply IH].
    intros Hin. apply Hnot. now apply held_filter_incl in Hin.
Qed.

Lemma same_key_same_id (p : sqlval) (a b : Book.t) :
  where_id p a = true -> where_id p b = true -> Book.id a = Book.id b.
Proof.
  intros Ha Hb. apply where_id_true in Ha, Hb. congruence.
Qed.

Lemma no_second_hit (p : sqlval) (b : Book.t) (l : list Book.t) :
  Forall (id_lt b) l -> where_id p b = true -> List.filter (where_id p) l = [].
Proof.
  intros Hall Hb. induction l as [|x l IH]; [reflexivity|].
  inversion Hall as [|? ? Hx Hall']; subst. simpl.
  destruct (where_id p x) eqn:E; [|now apply IH].
  pose proof (same_key_same_id p b x Hb E). unfold id_lt in Hx. lia.
Qed.

Lemma filter_neg_all (p : sqlval) (l : list Book.t) :
  List.filter (where_id p) l = [] ->
  List.filter (fun b => negb (where_id p b)) l = l.
Proof.
  induction l as [|x l IH]; [reflexivity|]. simpl.
  destruct (where_id p x); [discriminate|]. simpl. intros H. now rewrite IH.
Qed.

Lemma isbn_taken_cons (v : sqlval) (b : Book.t) (l : list Book.t) :
  isbn_taken v (b :: l) = false ->
  isbn_taken v l = false /\ (is_null v = true \/ Book.isbn b <> v).
Proof.
  unfold isbn_taken. simpl. destruct (is_null v); simpl; [auto|].
  intros H. apply orb_false_iff in H as [H1 H2]. split; [exact H2|].
  right. now apply bool_decide_eq_false in H1.
Qed.

Lemma held_not_null (v : sqlval) (l : list Book.t) :
  v ∈ held_isbns l -> is_null v = false.
Proof.
  unfold held_isbns. intros Hin.
  apply list_elem_of_In, filter_In in Hin as [_ H]. now apply negb_true_iff in H.
Qed.

Lemma held_update_incl (d : BookData.t) (ts : Z) (p : sqlval) (l : list Book.t) (x : sqlval) :
  x ∈ held_isbns (map (update_row d ts p) l) ->
  x ∈ held_isbns l \/ x = aff_text (bind_param (BookData.isbn d)).
Proof.
  induction l as [|b l IH]; simpl; [now left|].
  rewrite !held_cons. rewrite !elem_of_app. intros [Hx | Hx].
  - unfold update_row in Hx. destruct (where_id p b).
    + right. simpl in Hx.
      destruct (is_null (aff_text (bind_param (BookData.isbn d)))); [inversion Hx|].
      now apply list_elem_of_singleton in Hx.
    + now left; left.
  - destruct (IH Hx) as [H | H]; [left; now right | now right].
Qed.

Lemma nodup_held_update (d : BookData.t) (ts : Z) (p : sqlval) (l : list Book.t) :
  StronglySorted id_lt l ->
  NoDup (held_isbns l) ->
  isbn_taken (aff_text (bind_param (BookData.isbn d)))
    (List.filter (fun b => negb (where_id p b)) l) = false ->
  NoDup (held_isbns (map (update_row d ts p) l)).
Proof.
  set (v := aff_text (bind_param (BookData.isbn d))).
  induction l as [|b l IH]; intros Hs Hnd Hfree; [exact Hnd|].
  inversion Hs as [|? ? Hs' Hb]; subst.
  rewrite held_cons in Hnd. apply NoDup_app in Hnd as (_ & Hdisj & Hnd').
  assert (Hfree' : isbn_taken v
            (if negb (where_id p b)
             then b :: List.filter (fun b => negb (where_id p b)) l
             else List.filter (fun b => negb (where_id p b)) l) = false) by exact Hfree.
  clear Hfree. rename Hfree' into Hfree.
  simpl. rewrite held_cons.
  destruct (where_id p b) eqn:E; cbn [negb] in Hfree.
  - pose proof (no_second_hit p b l Hb E) as Hnone.
    rewrite (update_row_miss _ _ _ _ Hnone).
    rewrite (filter_neg_all _ _ Hnone) in Hfree.
    assert (Hu : Book.isbn (update_row d ts p b) = v)
      by (unfold update_row; now rewrite E).
    rewrite !Hu.
    destruct (is_null v); simpl; [exact Hnd'|].
    apply NoDup_cons. split; [now apply isbn_free_not_held | exact Hnd'].
  - apply isbn_taken_cons in Hfree as [Hfree Hb'].
    specialize (IH Hs' Hnd' Hfree).
    assert (Hu : update_row d ts p b = b) by (unfold update_row; now rewrite E).
    rewrite !Hu.
    destruct (is_null (Book.isbn b)) eqn:En; simpl; [exact IH|].
    apply NoDup_cons. split; [|exact IH].
    intros Hin. apply held_update_incl in Hin as [Hin | Hin].
    + apply (Hdisj (Book.isbn b)); [now left | exact Hin].
    + fold v in Hin. destruct Hb' as [Hnull | Hne]; [|now apply Hne].
      rewrite <- Hin in Hnull. congruence.
Qed.

Lemma consistent_set_faults (f : list (option string)) (st : Store) :
  consistent st -> consistent (set_faults f st).
Proof. intros H. exact H. Qed.

Lemma select_by_id_consistent (p : sqlval) : preserves consistent (select_by_id p).
Proof.
  apply preserves_statement; [apply consistent_set_faults|].
  intros st res st' H [= _ <-]. exact H.
Qed.

Lemma select_all_consistent : preserves consistent select_all.
Proof.
  apply preserves_statement; [apply consistent_set_faults|].
  intros st res st' H [= _ <-]. exact H.
Qed.

Lemma insert_book_consistent (d : BookData.t) : preserves consistent (insert_book d).
Proof.
  apply preserves_statement; [apply consistent_set_faults|].
  intros st res st' (Hs & Hmax & Hnd & Hreq). simpl.
  destruct (is_null (aff_text (bind_param (BookData.title d)))) eqn:Et;
    [intros [= _ <-]; now repeat split|].
  destruct (is_null (aff_text (bind_param (BookData.author d)))) eqn:Ea;
    [intros [= _ <-]; now repeat split|].
  destruct (isbn_taken _ _) eqn:Ei; [intros [= _ <-]; now repeat split|].
  intros [= _ <-]. unfold consistent. simpl.
  pose proof (max_rowid_nonneg (books st)) as Hnn.
  split; [|split; [|split]].
  - apply sorted_snoc; [exact Hs|].
    apply Forall_forall. intros b Hb. apply max_rowid_bound in Hb.
    unfold id_lt, next_rowid. simpl. lia.
  - rewrite max_rowid_snoc. simpl. unfold next_rowid. lia.
  - rewrite held_snoc. simpl.
    destruct (is_null (aff_text (bind_param (BookData.isbn d)))) eqn:En.
    + now rewrite app_nil_r.
    + apply NoDup_app. split; [exact Hnd|]. split; [|apply NoDup_singleton].
      intros x Hx Hx'. apply list_elem_of_singleton in Hx'. subst x.
      now apply isbn_free_not_held in Ei.
  - apply Forall_app. split; [exact Hreq|]. constructor; [|constructor]. now split.
Qed.

Lemma update_book_consistent (d : BookData.t) (p : sqlval) :
  preserves consistent (update_book d p).
Proof.
  apply preserves_statement; [apply consistent_set_faults|].
  intros st res st' (Hs & Hmax & Hnd & Hreq). simpl.
  destruct (List.filter (where_id p) (books st)); [intros [= _ <-]; now repeat split|].
  destruct (is_null (aff_text (bind_param (BookData.title d)))) eqn:Et;
    [intros [= _ <-]; now repeat split|].
  destruct (is_null (aff_text (bind_param (BookData.author d)))) eqn:Ea;
    [intros [= _ <-]; now repeat split|].
  destruct (isbn_taken _ _) eqn:Ei; [intros [= _ <-]; now repeat split|].
  intros [= _ <-]. unfold consistent. simpl.
  split; [|split; [|split]].
  - apply sorted_same_ids; [apply update_row_id | exact Hs].
  - rewrite max_rowid_same_ids by apply update_row_id. exact Hmax.
  - now apply nodup_held_update.
  - apply Forall_fmap. eapply Forall_impl; [exact Hreq|].
    intros b Hb. simpl. unfold update_row. destruct (where_id p b); [|exact Hb].
    simpl. now split.
Qed.

Lemma delete_book_consistent (p : sqlval) : preserves consistent (delete_book p).
Proof.
  apply preserves_statement; [apply consistent_set_faults|].
  intros st res st' (Hs & Hmax & Hnd & Hreq) [= _ <-]. unfold consistent. simpl.
  split; [|split; [|split]].
  - now apply sorted_filter.
  - pose proof (max_rowid_filter (fun b => negb (where_id p b)) (books st)). lia.
  - now apply nodup_held_filter.
  - rewrite Forall_forall in Hreq |- *. intros b Hb. apply Hreq.
    apply list_elem_of_In in Hb. apply filter_In in Hb as [Hb _].
    now apply list_elem_of_In.
Qed.

Lemma router_consistent (r : Route) (req : Request) :
  preserves consistent (router r req).
Proof.
  destruct r; simpl.
  - apply preserves_try_catch; [|intros; apply preserves_ret].
    apply preserves_bind; [apply select_all_consistent | intros; apply preserves_ret].
  - apply preserves_try_catch; [|intros; apply preserves_ret].
    apply preserves_bind; [apply select_by_id_consistent|].
    intros [b|]; apply preserves_ret.
  - apply preserves_try_catch; [|intros; apply preserves_ret].
    apply preserves_if; [apply preserves_ret|].
    apply preserves_bind; [|intros; apply preserves_ret].
    apply preserves_bind; [apply insert_book_consistent|].
    intros; apply select_by_id_consistent.
  - apply preserves_try_catch; [|intros; apply preserves_ret].
    apply preserves_if; [apply preserves_ret|].
    apply preserves_bind; [|intros [b|]; apply preserves_ret].
    apply preserves_bind; [apply update_book_consistent|].
    intros n. apply preserves_if; [apply preserves_ret | apply select_by_id_consistent].
  - apply preserves_try_catch; [|intros; apply preserves_ret].
    apply preserves_bind; [|intros [b|]; apply preserves_ret].
    apply preserves_bind; [apply select_by_id_consistent|].
    intros [b|]; [|apply preserves_ret].
    apply preserves_bind; [apply delete_book_consistent | intros; apply preserves_ret].
Qed.

(** X1: whatever requests are served, in whatever order, with whatever
    store faults and whatever time in between, a consistent table stays
    consistent: keys ascending and distinct, none above the AUTOINCREMENT
    mark, no isbn held by two rows, no null title or author. *)
Theorem serve_keeps_consistent (l : list (Z * Route * Request)) (st : Store) :
  consistent st -> consistent (snd (serve l st)).
Proof.
  revert st. induction l as [|[[ms r] req] l IH]; intros st H; [exact H|].
  simpl. destruct (router r req (tick ms st)) as [resp st1] eqn:E1.
  specialize (IH st1). destruct (serve l st1) as [rest st2]. simpl in *.
  apply IH. apply (router_consistent r req (tick ms st) resp st1); [exact H | exact E1].
Qed.

(** ** Keys are never reused *)

Lemma router_preserves (P : Store -> Prop) :
  (forall f st, P st -> P (set_faults f st)) ->
  (forall d, preserves P (insert_book d)) ->
  (forall d p, preserves P (update_book d p)) ->
  (forall p, preserves P (delete_book p)) ->
  forall r req, preserves P (router r req).
Proof.
  intros Hf Hins Hupd Hdel.
  assert (Hsel : forall p, preserves P (select_by_id p)).
  { intros p. apply preserves_statement; [exact Hf|].
    intros st res st' H [= _ <-]. exact H. }
  intros r req. destruct r; simpl.
  - apply preserves_try_catch; [|intros; apply preserves_ret].
    apply preserves_bind; [|intros; apply preserves_ret].
    apply preserves_statement; [exact Hf|]. intros st res st' H [= _ <-]. exact H.
  - apply preserves_try_catch; [|intros; apply preserves_ret].
    apply preserves_bind; [apply Hsel|]. intros [b|]; apply preserves_ret.
  - apply preserves_try_catch; [|intros; apply preserves_ret].
    apply preserves_if; [apply preserves_ret|].
    apply preserves_bind; [|intros; apply preserves_ret].
    apply preserves_bind; [apply Hins | intros; apply Hsel].
  - apply preserves_try_catch; [|intros; apply preserves_ret].
    apply preserves_if; [apply preserves_ret|].
    apply preserves_bind; [|intros [b|]; apply preserves_ret].
    apply preserves_bind; [apply Hupd|].
    intros n. apply preserves_if; [apply preserves_ret | apply Hsel].
  - apply preserves_try_catch; [|intros; apply preserves_ret].
    apply preserves_bind; [|intros [b|]; apply preserves_ret].
    apply preserves_bind; [apply Hsel|].
    intros [b|]; [|apply preserves_ret].
    apply preserves_bind; [apply Hdel | intros; apply preserves_ret].
Qed.

Lemma router_sequence_grows (q : Z) (r : Route) (req : Request) :
  preserves (fun st => (q <= sqlite_sequence st)%Z) (router r req).
Proof.
  apply router_preserves.
  - intros f st H. exact H.
  - intros d. apply preserves_statement; [intros f st H; exact H|].
    intros st res st' H. simpl.
    repeat (destruct (is_null _); [intros [= _ <-]; exact H|]).
    destruct (isbn_taken _ _); intros [= _ <-]; [exact H|].
    simpl. unfold next_rowid. lia.
  - intros d p. apply preserves_statement; [intros f st H; exact H|].
    intros st res st' H. simpl.
    destruct (List.filter _ _); [intros [= _ <-]; exact H|].
    repeat (destruct (is_null _); [intros [= _ <-]; exact H|]).
    destruct (isbn_taken _ _); intros [= _ <-]; exact H.
  - intros p. apply preserves_statement; [intros f st H; exact H|].
    intros st res st' H [= _ <-]. exact H.
Qed.

Lemma serve_sequence_grows (l : list (Z * Route * Request)) (st : Store) :
  (sqlite_sequence st <= sqlite_sequence (snd (serve l st)))%Z.
Proof.
  revert st. induction l as [|[[ms r] req] l IH]; intros st; simpl; [lia|].
  destruct (router r req (tick ms st)) as [resp st1] eqn:E1.
  specialize (IH st1). destruct (serve l st1) as [rest st2]. simpl in *.
  pose proof (router_sequence_grows (sqlite_sequence st) r req (tick ms st) resp st1
                (Z.le_refl _) E1) as H.
  cbv beta in H. lia.
Qed.

Lemma createBook_ok_id (d : BookData.t) (st st' : Store) (c : Book.t) :
  createBook d st = (Ok (Some c), st') -> Book.id c = next_rowid st.
Proof.
  unfold createBook, mbind, M_bind.
  destruct (insert_book d st) as [[i|e] s1] eqn:E1; [|discriminate].
  intros H. unfold select_by_id in H. apply statement_ok in H as [f2 H].
  injection H as H _. apply find_some in H as [_ H].
  apply where_id_true in H. simpl in H. injection H as <-.
  unfold insert_book in E1. apply statement_ok in E1 as [f1 E1]. simpl in E1.
  repeat (destruct (is_null _); [discriminate|]).
  destruct (isbn_taken _ _); [discriminate|].
  now injection E1 as <- _.
Qed.

(** X2: a key is never handed out twice.  A row of a consistent table, any
    requests served afterwards (its own deletion among them, store faults
    allowed), then a successful [createBook]: the new row's id is larger than
    the old row's. *)
Theorem ids_never_reused
    (st : Store) (b : Book.t) (l : list (Z * Route * Request))
    (d : BookData.t) (c : Book.t) (st' : Store) :
  consistent st ->
  b ∈ books st ->
  createBook d (snd (serve l st)) = (Ok (Some c), st') ->
  (Book.id b < Book.id c)%Z.
Proof.
  intros (_ & Hmax & _) Hb Hc.
  apply createBook_ok_id in Hc. rewrite Hc.
  apply max_rowid_bound in Hb.
  pose proof (serve_sequence_grows l st). unfold next_rowid. lia.
Qed.

(** ** Reads leave the data alone *)

(** X3: the two GET routes never change the table, the AUTOINCREMENT mark
    or the clock, whether the store answers or fails. *)
Theorem get_routes_read_only (req : Request) (st : Store) :
  same_data (snd (get_books req st)) st /\ same_data (snd (get_book req st)) st.
Proof.
  assert (Hsel : forall A (g : Store -> A),
            preserves (fun s => same_data s st) (statement (fun s => (Ok (g s), s)))).
  { intros A g. apply preserves_statement; [intros f s H; exact H|].
    intros s res s' H [= _ <-]. exact H. }
  assert (H0 : same_data st st) by (repeat split).
  split.
  - assert (Hp : preserves (fun s => same_data s st) (get_books req)).
    { apply preserves_try_catch; [|intros; apply preserves_ret].
      apply preserves_bind; [|intros; apply preserves_ret].
      apply (Hsel _ (fun s => order_by_created_at_desc (books s))). }
    destruct (get_books req st) as [r1 st1] eqn:E. exact (Hp st r1 st1 H0 E).
  - assert (Hp : preserves (fun s => same_data s st) (get_book req)).
    { apply preserves_try_catch; [|intros; apply preserves_ret].
      apply preserves_bind; [|intros [x|]; apply preserves_ret].
      apply (Hsel _ (fun s =>
               List.find (where_id (bind_param (JStr (params_id req)))) (books s))). }
    destruct (get_book req st) as [r2 st2] eqn:E. exact (Hp st r2 st2 H0 E).
Qed.

(** ** A store without faults *)

Lemma createBook_conflict (d : BookData.t) (st : Store) :
  faults st = [] ->
  truthy (BookData.title d) = true ->
  truthy (BookData.author d) = true ->
  isbn_taken (aff_text (bind_param (BookData.isbn d))) (books st) = true ->
  createBook d st =
    (Throw "SQLITE_CONSTRAINT: UNIQUE constraint failed: books.isbn", st).
Proof.
  intros Hf Ht Ha Hisbn.
  unfold createBook, mbind, M_bind, insert_book.
  rewrite statement_calm by assumption.
  change (Book.title (stored d (next_rowid st) (CURRENT_TIMESTAMP st) (CURRENT_TIMESTAMP st)))
    with (aff_text (bind_param (BookData.title d))).
  change (Book.author (stored d (next_rowid st) (CURRENT_TIMESTAMP st) (CURRENT_TIMESTAMP st)))
    with (aff_text (bind_param (BookData.author d))).
  change (Book.isbn (stored d (next_rowid st) (CURRENT_TIMESTAMP st) (CURRENT_TIMESTAMP st)))
    with (aff_text (bind_param (BookData.isbn d))).
  now rewrite (truthy_stored_text _ Ht), (truthy_stored_text _ Ha), Hisbn.
Qed.

Lemma updateBook_missing (id : jsval) (d : BookData.t) (st : Store) :
  faults st = [] ->
  List.find (where_id (bind_param id)) (books st) = None ->
  updateBook id d st = (Ok None, st).
Proof.
  intros Hf Hfind. unfold updateBook, mbind, M_bind, update_book.
  rewrite statement_calm by assumption.
  now rewrite (find_none_filter _ _ Hfind).
Qed.

Lemma updateBook_conflict (id : jsval) (d : BookData.t) (st : Store) (b : Book.t) :
  faults st = [] ->
  List.find (where_id (bind_param id)) (books st) = Some b ->
  truthy (BookData.title d) = true ->
  truthy (BookData.author d) = true ->
  isbn_taken (aff_text (bind_param (BookData.isbn d)))
    (List.filter (fun x => negb (where_id (bind_param id) x)) (books st)) = true ->
  updateBook id d st =
    (Throw "SQLITE_CONSTRAINT: UNIQUE constraint failed: books.isbn", st).
Proof.
  intros Hf Hfind Ht Ha Hisbn.
  unfold updateBook, mbind, M_bind, update_book.
  rewrite statement_calm by assumption.
  destruct (find_some_filter _ _ _ Hfind) as [rest ->].
  change (Book.title (stored d 0 0 0)) with (aff_text (bind_param (BookData.title d))).
  change (Book.author (stored d 0 0 0)) with (aff_text (bind_param (BookData.author d))).
  change (Book.isbn (stored d 0 0 0)) with (aff_text (bind_param (BookData.isbn d))).
  now rewrite (truthy_stored_text _ Ht), (truthy_stored_text _ Ha), Hisbn.
Qed.

Lemma deleteBook_calm (id : jsval) (st : Store) :
  faults st = [] ->
  deleteBook id st =
    match List.find (where_id (bind_param id)) (books st) with
    | Some b =>
        (Ok (Some b),
         set_books (List.filter (fun x => negb (where_id (bind_param id) x)) (books st)) st)
    | None => (Ok None, st)
    end.
Proof.
  intros Hf. unfold deleteBook, mbind, M_bind, select_by_id.
  rewrite statement_calm by assumption.
  destruct (List.find _ _); [|reflexivity].
  unfold delete_book. now rewrite statement_calm.
Qed.

Lemma validated (o : gmap string jsval) :
  negb (truthy (BookData.title (body_data o)))
  || negb (truthy (BookData.author (body_data o))) = false ->
  truthy (BookData.title (body_data o)) = true /\
  truthy (BookData.author (body_data o)) = true.
Proof.
  intros H. apply orb_false_iff in H as [H1 H2].
  now apply negb_false_iff in H1, H2.
Qed.

(** X4: on a store with no fault pending every request is answered, and
    the answer is either a success (200, 201) or a 400 or 404 that leaves the
    store exactly as it was; a 500 never comes from the handlers
    themselves. *)
Theorem healthy_store_answers (r : Route) (req : Request) (st : Store) :
  faults st = [] ->
  exists (resp : Response) (st' : Store),
    router r req st = (Ok resp, st') /\
    ((status resp = 200 \/ status resp = 201) \/
     ((status resp = 400 \/ status resp = 404) /\ st' = st)).
Proof.
  intros Hf. destruct r; simpl.
  - unfold get_books, try_catch, mbind, M_bind, getAllBooks, select_all.
    rewrite statement_calm by assumption. simpl. eexists _, _. split; [reflexivity|].
    left. now left.
  - unfold get_book, try_catch, mbind, M_bind.
    rewrite getBookById_calm by assumption.
    destruct (List.find _ _); simpl; eexists _, _; (split; [reflexivity|]); simpl; auto.
  - unfold post_book, try_catch.
    destruct (negb _ || negb _) eqn:Ev.
    { simpl. eexists _, _. split; [reflexivity|]. simpl. auto. }
    apply validated in Ev as [Ht Ha]. unfold mbind at 1, M_bind at 1.
    destruct (isbn_taken (aff_text (bind_param (BookData.isbn (body_data (body req)))))
                (books st)) eqn:Ei.
    + rewrite (createBook_conflict _ _ Hf Ht Ha Ei).
      eexists _, _. split; [reflexivity|]. simpl. auto.
    + rewrite (createBook_calm _ _ Hf Ht Ha Ei).
      eexists _, _. split; [reflexivity|]. simpl. auto.
  - unfold put_book, try_catch.
    destruct (negb _ || negb _) eqn:Ev.
    { simpl. eexists _, _. split; [reflexivity|]. simpl. auto. }
    apply validated in Ev as [Ht Ha]. unfold mbind at 1, M_bind at 1.
    destruct (List.find (where_id (bind_param (JStr (params_id req)))) (books st))
      as [b|] eqn:Efind.
    + destruct (isbn_taken (aff_text (bind_param (BookData.isbn (body_data (body req)))))
                  (List.filter
                     (fun x => negb (where_id (bind_param (JStr (params_id req))) x))
                     (books st))) eqn:Ei.
      * rewrite (updateBook_conflict _ _ _ _ Hf Efind Ht Ha Ei).
        eexists _, _. split; [reflexivity|]. simpl. auto.
      * rewrite (updateBook_calm _ _ _ _ Hf Efind Ht Ha Ei).
        eexists _, _. split; [reflexivity|]. simpl. auto.
    + rewrite (updateBook_missing _ _ _ Hf Efind).
      eexists _, _. split; [reflexivity|]. simpl. auto.
  - unfold delete_book_route, try_catch, mbind, M_bind.
    rewrite deleteBook_calm by assumption.
    destruct (List.find _ _); simpl; eexists _, _; (split; [reflexivity|]); simpl; auto.
Qed.

(** ** The isbn rule *)

Lemma isbn_taken_held (v : sqlval) (l : list Book.t) :
  isbn_taken v l = true -> v ∈ held_isbns l.
Proof.
  unfold isbn_taken, held_isbns. intros H.
  apply andb_true_iff in H as [Hnn Hex].
  apply existsb_exists in Hex as (b & Hb & Heq). apply bool_decide_eq_true in Heq.
  apply list_elem_of_In, filter_In. split; [|exact Hnn].
  apply in_map_iff. now exists b.
Qed.

Lemma held_of_row (b : Book.t) (l : list Book.t) :
  In b l -> is_null (Book.isbn b) = false -> Book.isbn b ∈ held_isbns l.
Proof.
  intros Hb Hnn. unfold held_isbns. apply list_elem_of_In, filter_In.
  split; [now apply in_map | now rewrite Hnn].
Qed.

Lemma own_isbn_free (p : sqlval) (l : list Book.t) (b : Book.t) :
  StronglySorted id_lt l ->
  NoDup (held_isbns l) ->
  List.find (where_id p) l = Some b ->
  isbn_taken (Book.isbn b) (List.filter (fun x => negb (where_id p x)) l) = false.
Proof.
  induction l as [|x l IH]; intros Hs Hnd Hfind; [discriminate|].
  inversion Hs as [|? ? Hs' Hx]; subst.
  rewrite held_cons in Hnd. apply NoDup_app in Hnd as (_ & Hdisj & Hnd').
  simpl in Hfind.
  assert (Hfilter : List.filter (fun y => negb (where_id p y)) (x :: l) =
                    if negb (where_id p x)
                    then x :: List.filter (fun y => negb (where_id p y)) l
                    else List.filter (fun y => negb (where_id p y)) l) by reflexivity.
  rewrite Hfilter. clear Hfilter.
  destruct (where_id p x) eqn:E; cbn [negb].
  - injection Hfind as ->.
    rewrite (filter_neg_all _ _ (no_second_hit p b l Hx E)).
    destruct (isbn_taken (Book.isbn b) l) eqn:Et; [|reflexivity].
    apply isbn_taken_held in Et. exfalso.
    apply (Hdisj (Book.isbn b)); [|exact Et].
    rewrite (held_not_null _ _ Et). now left.
  - specialize (IH Hs' Hnd' Hfind).
    unfold isbn_taken in IH |- *. simpl.
    destruct (is_null (Book.isbn b)) eqn:En; [reflexivity|]. simpl in IH |- *.
    rewrite IH, orb_false_r. apply bool_decide_eq_false. intros Heq.
    apply find_some in Hfind as [Hin _].
    apply (Hdisj (Book.isbn b)); [|now apply held_of_row].
    rewrite Heq, En. now left.
Qed.

(** X5: a second book with an isbn already stored is refused.  On a store
    with no fault pending a first [createBook] with a free, non-null isbn
    succeeds; any later POST whose isbn is stored as the same value is
    answered 400 "ISBN already exists" and changes nothing. *)
Theorem duplicate_isbn_rejected
    (d1 : BookData.t) (req2 : Request) (st : Store) (ms : Z) :
  faults st = [] ->
  truthy (BookData.title d1) = true ->
  truthy (BookData.author d1) = true ->
  isbn_taken (aff_text (bind_param (BookData.isbn d1))) (books st) = false ->
  is_null (aff_text (bind_param (BookData.isbn d1))) = false ->
  truthy (field "title" (body req2)) = true ->
  truthy (field "author" (body req2)) = true ->
  aff_text (bind_param (field "isbn" (body req2))) =
  aff_text (bind_param (BookData.isbn d1)) ->
  exists (r : Book.t) (st1 : Store),
    createBook d1 st = (Ok (Some r), st1) /\
    post_book req2 (tick ms st1) =
      (Ok (mkResponse 400 (mkEnvelope false (Some "ISBN already exists") None None None)),
       tick ms st1).
Proof.
  intros Hf Ht1 Ha1 Hfree Hnn Ht2 Ha2 Hsame.
  pose proof (createBook_calm d1 st Hf Ht1 Ha1 Hfree) as H1.
  set (r := stored d1 (next_rowid st) (CURRENT_TIMESTAMP st) (CURRENT_TIMESTAMP st)) in *.
  set (st1 := mkStore (books st ++ [r]) (next_rowid st) (now_ms st) []) in *.
  exists r, st1. split; [exact H1|].
  assert (H2 : createBook (body_data (body req2)) (tick ms st1) =
               (Throw "SQLITE_CONSTRAINT: UNIQUE constraint failed: books.isbn",
                tick ms st1)).
  { apply createBook_conflict; [reflexivity | exact Ht2 | exact Ha2 |].
    apply isbn_held_taken.
    change (BookData.isbn (body_data (body req2))) with (field "isbn" (body req2)).
    rewrite Hsame. simpl. rewrite held_snoc. apply elem_of_app. right.
    simpl. rewrite Hnn. now left. }
  unfold post_book, try_catch.
  change (BookData.title (body_data (body req2))) with (field "title" (body req2)).
  change (BookData.author (body_data (body req2))) with (field "author" (body req2)).
  rewrite Ht2, Ha2. simpl. unfold mbind, M_bind. now rewrite H2.
Qed.

(** X6: an update may keep the isbn the row already has.  On a consistent
    table with no fault pending, updating a stored row with non-empty title
    and author and an isbn stored as the row's own succeeds, and the row keeps
    its id and isbn. *)
Theorem update_keeping_isbn_succeeds
    (id : jsval) (d : BookData.t) (st : Store) (b : Book.t) :
  consistent st ->
  faults st = [] ->
  List.find (where_id (bind_param id)) (books st) = Some b ->
  truthy (BookData.title d) = true ->
  truthy (BookData.author d) = true ->
  aff_text (bind_param (BookData.isbn d)) = Book.isbn b ->
  exists (r : Book.t) (st' : Store),
    updateBook id d st = (Ok (Some r), st') /\
    Book.id r = Book.id b /\ Book.isbn r = Book.isbn b /\
    Book.created_at r = Book.created_at b.
Proof.
  intros (Hs & _ & Hnd & _) Hf Hfind Ht Ha Hisbn.
  eexists _, _. split.
  - apply (updateBook_calm id d st b Hf Hfind Ht Ha).
    rewrite Hisbn. now apply own_isbn_free.
  - simpl. now rewrite Hisbn.
Qed.

(** X7: an update may not take the isbn of another row.  With no fault
    pending, a PUT on a stored id whose isbn is stored as the non-null isbn of
    a row with another id is answered 400 "ISBN already exists" and changes
    nothing. *)
Theorem update_to_taken_isbn_conflicts (req : Request) (st : Store) (b c : Book.t) :
  faults st = [] ->
  List.find (where_id (bind_param (JStr (params_id req)))) (books st) = Some b ->
  truthy (field "title" (body req)) = true ->
  truthy (field "author" (body req)) = true ->
  c ∈ books st ->
  where_id (bind_param (JStr (params_id req))) c = false ->
  is_null (Book.isbn c) = false ->
  aff_text (bind_param (field "isbn" (body req))) = Book.isbn c ->
  put_book req st =
    (Ok (mkResponse 400 (mkEnvelope false (Some "ISBN already exists") None None None)), st).
Proof.
  intros Hf Hfind Ht Ha Hc Hother Hnn Hisbn.
  unfold put_book, try_catch.
  change (BookData.title (body_data (body req))) with (field "title" (body req)).
  change (BookData.author (body_data (body req))) with (field "author" (body req)).
  assert (H2 : updateBook (JStr (params_id req)) (body_data (body req)) st =
               (Throw "SQLITE_CONSTRAINT: UNIQUE constraint failed: books.isbn", st)).
  { apply (updateBook_conflict _ _ _ b Hf Hfind); [exact Ht | exact Ha |].
    apply isbn_held_taken.
    change (BookData.isbn (body_data (body req))) with (field "isbn" (body req)).
    rewrite Hisbn. apply held_of_row; [|exact Hnn].
    apply filter_In. split; [now apply list_elem_of_In | now rewrite Hother]. }
  rewrite Ht, Ha. simpl. unfold mbind, M_bind. now rewrite H2.
Qed.

(** ** A write that is answered 500 *)

(** X8: [createBook] inserts and then re-reads.  When the insert runs and
    the re-read fails (with an error that is not a uniqueness failure), POST
    answers 500 "Error creating book" although the row is in the table. *)
Theorem created_but_answered_500
    (req : Request) (st : Store) (e : string) (rest : list (option string)) :
  faults st = None :: Some e :: rest ->
  truthy (field "title" (body req)) = true ->
  truthy (field "author" (body req)) = true ->
  isbn_taken (aff_text (bind_param (field "isbn" (body req)))) (books st) = false ->
  includes e "UNIQUE constraint failed" = false ->
  post_book req st =
    (Ok (mkResponse 500
           (mkEnvelope false (Some "Error creating book") None None (Some e))),
     mkStore
       (books st ++
        [stored (body_data (body req)) (next_rowid st)
           (CURRENT_TIMESTAMP st) (CURRENT_TIMESTAMP st)])
       (next_rowid st) (now_ms st) rest).
Proof.
  intros Hf Ht Ha Hfree He.
  set (d := body_data (body req)).
  set (r := stored d (next_rowid st) (CURRENT_TIMESTAMP st) (CURRENT_TIMESTAMP st)).
  assert (Hi : insert_book d st =
               (Ok (next_rowid st),
                mkStore (books st ++ [r]) (next_rowid st) (now_ms st) (Some e :: rest))).
  { unfold insert_book, statement. rewrite Hf.
    change (Book.title (stored d (next_rowid (set_faults (Some e :: rest) st))
              (CURRENT_TIMESTAMP (set_faults (Some e :: rest) st))
              (CURRENT_TIMESTAMP (set_faults (Some e :: rest) st))))
      with (aff_text (bind_param (field "title" (body req)))).
    change (Book.author (stored d (next_rowid (set_faults (Some e :: rest) st))
              (CURRENT_TIMESTAMP (set_faults (Some e :: rest) st))
              (CURRENT_TIMESTAMP (set_faults (Some e :: rest) st))))
      with (aff_text (bind_param (field "author" (body req)))).
    change (Book.isbn (stored d (next_rowid (set_faults (Some e :: rest) st))
              (CURRENT_TIMESTAMP (set_faults (Some e :: rest) st))
              (CURRENT_TIMESTAMP (set_faults (Some e :: rest) st))))
      with (aff_text (bind_param (field "isbn" (body req)))).
    rewrite (truthy_stored_text _ Ht), (truthy_stored_text _ Ha).
    change (books (set_faults (Some e :: rest) st)) with (books st).
    rewrite Hfree. reflexivity. }
  assert (Hc : createBook d st =
               (Throw e, mkStore (books st ++ [r]) (next_rowid st) (now_ms st) rest)).
  { unfold createBook, mbind, M_bind. rewrite Hi. reflexivity. }
  unfold post_book, try_catch. fold d.
  change (BookData.title d) with (field "title" (body req)).
  change (BookData.author d) with (field "author" (body req)).
  rewrite Ht, Ha. simpl. unfold mbind, M_bind. rewrite Hc.
  unfold mret, M_ret, on_write_error. now rewrite He.
Qed.

(** ** Operations one after the other *)

Lemma filter_out_fresh (l : list Book.t) (r : Book.t) :
  (forall b, b ∈ l -> (Book.id b < Book.id r)%Z) ->
  List.filter (fun x => negb (where_id (SInt (Book.id r)) x)) (l ++ [r]) = l.
Proof.
  induction l as [|x l IH]; intros H; simpl.
  - unfold where_id. simpl. now rewrite Z.eqb_refl.
  - unfold where_id at 1. simpl.
    assert (Hx : (Book.id x < Book.id r)%Z) by (apply H; left).
    destruct (Z.eqb_spec (Book.id x) (Book.id r)); [lia|]. simpl.
    rewrite IH; [reflexivity|]. intros b Hb. apply H. now right.
Qed.

(** X9: creating a book and deleting it again gives the table back.  With
    no fault pending, [deleteBook] on the id that [createBook] returned
    returns the created record and leaves the rows that were there before;
    the AUTOINCREMENT mark stays at the id that was used. *)
Theorem create_then_delete (d : BookData.t) (st : Store) :
  faults st = [] ->
  truthy (BookData.title d) = true ->
  truthy (BookData.author d) = true ->
  isbn_taken (aff_text (bind_param (BookData.isbn d))) (books st) = false ->
  exists (r : Book.t) (st1 st2 : Store),
    createBook d st = (Ok (Some r), st1) /\
    deleteBook (JNum (Book.id r)) st1 = (Ok (Some r), st2) /\
    books st2 = books st /\
    sqlite_sequence st2 = Book.id r /\
    (sqlite_sequence st < Book.id r)%Z.
Proof.
  intros Hf Ht Ha Hfree.
  pose proof (createBook_calm d st Hf Ht Ha Hfree) as H1.
  set (r := stored d (next_rowid st) (CURRENT_TIMESTAMP st) (CURRENT_TIMESTAMP st)) in *.
  set (st1 := mkStore (books st ++ [r]) (next_rowid st) (now_ms st) []) in *.
  assert (Hfresh : forall b, b ∈ books st -> (Book.id b < Book.id r)%Z).
  { intros b Hb. apply max_rowid_bound in Hb. subst r. simpl. unfold next_rowid. lia. }
  exists r, st1, (set_books (books st) st1).
  split; [exact H1|]. split; [|split; [reflexivity|split; [reflexivity|]]].
  - rewrite deleteBook_calm by reflexivity.
    cbn [bind_param books st1].
    rewrite (find_fresh (books st) r Hfresh).
    now rewrite (filter_out_fresh (books st) r Hfresh).
  - subst r. simpl. unfold next_rowid. lia.
Qed.

(** X10: deleting twice.  With no fault pending, whatever the first
    DELETE of an id did, a second DELETE of the same id is answered 404
    "Book not found" and changes nothing. *)
Theorem delete_twice (req : Request) (st : Store) :
  faults st = [] ->
  delete_book_route req (snd (delete_book_route req st)) =
    (Ok (mkResponse 404 (mkEnvelope false (Some "Book not found") None None None)),
     snd (delete_book_route req st)).
Proof.
  intros Hf.
  assert (Hroute : forall s, faults s = [] ->
            List.find (where_id (bind_param (JStr (params_id req)))) (books s) = None ->
            delete_book_route req s =
              (Ok (mkResponse 404 (mkEnvelope false (Some "Book not found") None None None)),
               s)).
  { intros s Hs Hnone. unfold delete_book_route, try_catch, mbind, M_bind.
    rewrite deleteBook_calm by assumption. now rewrite Hnone. }
  destruct (List.find (where_id (bind_param (JStr (params_id req)))) (books st))
    as [b|] eqn:Efind.
  - assert (H1 : delete_book_route req st =
                 (Ok (mkResponse 200
                        (mkEnvelope true (Some "Book deleted successfully")
                           (Some (PDeleted b)) None None)),
                  set_books
                    (List.filter
                       (fun x => negb (where_id (bind_param (JStr (params_id req))) x))
                       (books st)) st)).
    { unfold delete_book_route, try_catch, mbind, M_bind.
      rewrite deleteBook_calm by assumption. now rewrite Efind. }
    rewrite H1. cbn [snd]. apply Hroute; [exact Hf|]. apply find_after_delete.
  - rewrite (Hroute st Hf Efind). cbn [snd]. now apply Hroute.
Qed.

Lemma update_row_twice (d : BookData.t) (t1 t2 : Z) (p : sqlval) (l : list Book.t) :
  map (update_row d t2 p) (map (update_row d t1 p) l) = map (update_row d t2 p) l.
Proof.
  rewrite map_map. apply map_ext. intros b.
  unfold update_row at 1. rewrite where_id_update_row.
  unfold update_row. destruct (where_id p b); reflexivity.
Qed.

Lemma others_after_update (d : BookData.t) (ts : Z) (p : sqlval) (l : list Book.t) :
  List.filter (fun x => negb (where_id p x)) (map (update_row d ts p) l) =
  List.filter (fun x => negb (where_id p x)) l.
Proof.
  induction l as [|b l IH]; [reflexivity|]. simpl.
  rewrite where_id_update_row, IH.
  destruct (where_id p b) eqn:E; [reflexivity|]. simpl.
  unfold update_row. now rewrite E.
Qed.

(** X11: repeating an update.  With no fault pending, sending the same
    update of a stored id a second time (after any lapse of time) succeeds and
    ends in the very result and store that the update alone would have given
    at that later time: the first update leaves no trace. *)
Theorem update_twice
    (id : jsval) (d : BookData.t) (st : Store) (b : Book.t) (ms : Z) :
  faults st = [] ->
  List.find (where_id (bind_param id)) (books st) = Some b ->
  truthy (BookData.title d) = true ->
  truthy (BookData.author d) = true ->
  isbn_taken (aff_text (bind_param (BookData.isbn d)))
    (List.filter (fun x => negb (where_id (bind_param id) x)) (books st)) = false ->
  exists (r2 : Book.t) (st2 : Store),
    updateBook id d (tick ms (snd (updateBook id d st))) = (Ok (Some r2), st2) /\
    updateBook id d (tick ms st) = (Ok (Some r2), st2).
Proof.
  intros Hf Hfind Ht Ha Hfree.
  rewrite (updateBook_calm id d st b Hf Hfind Ht Ha Hfree). cbn [snd].
  set (st1 := set_books (map (update_row d (CURRENT_TIMESTAMP st) (bind_param id))
                           (books st)) st).
  assert (Hfind1 : List.find (where_id (bind_param id)) (books (tick ms st1)) =
                   Some (update_row d (CURRENT_TIMESTAMP st) (bind_param id) b)).
  { simpl. now rewrite find_update_row, Hfind. }
  assert (Hfree1 : isbn_taken (aff_text (bind_param (BookData.isbn d)))
                     (List.filter (fun x => negb (where_id (bind_param id) x))
                        (books (tick ms st1))) = false).
  { simpl. now rewrite others_after_update. }
  rewrite (updateBook_calm id d (tick ms st1) _ Hf Hfind1 Ht Ha Hfree1).
  rewrite (updateBook_calm id d (tick ms st) b Hf Hfind Ht Ha Hfree).
  eexists _, _. split; [reflexivity|].
  rewrite update_row_id.
  assert (Hc : Book.created_at (update_row d (CURRENT_TIMESTAMP st) (bind_param id) b) =
               Book.created_at b)
    by (unfold update_row; now destruct (where_id (bind_param id) b)).
  rewrite Hc. unfold st1. cbn [books set_books tick].
  rewrite update_row_twice. reflexivity.
Qed.

(** ** The listing *)

(** X12: with no fault pending, GET /api/books answers 200 with every
    stored row exactly once, newest [created_at] first, [total] being the
    number of stored rows, and leaves the store as it was. *)
Theorem list_reports_every_row (req : Request) (st : Store) :
  faults st = [] ->
  exists l,
    get_books req st =
      (Ok (mkResponse 200
             (mkEnvelope true None (Some (PBooks l)) (Some (length (books st))) None)),
       st) /\
    Permutation l (books st) /\
    Sorted newer_or_same l.
Proof.
  intros Hf. exists (order_by_created_at_desc (books st)).
  split; [|split; [apply order_by_perm | apply order_by_sorted]].
  unfold get_books, try_catch, mbind, M_bind, getAllBooks, select_all.
  rewrite statement_calm by assumption. simpl.
  now rewrite (Permutation_length (order_by_perm (books st))).
Qed.

Lemma insert_by_id_last (b : Book.t) (l : list Book.t) :
  Forall (fun x => id_lt b x) l -> insert_by_id b l = l ++ [b].
Proof.
  induction l as [|x l IH]; intros H; [reflexivity|].
  inversion H as [|? ? Hx H']; subst. simpl.
  unfold id_lt in Hx. destruct (Z.leb_spec (Book.id x) (Book.id b)); [lia|].
  now rewrite IH.
Qed.

Lemma order_by_id_desc_rev (l : list Book.t) :
  StronglySorted id_lt l -> order_by_id_desc l = rev l.
Proof.
  induction l as [|b l IH]; intros Hs; [reflexivity|].
  inversion Hs as [|? ? Hs' Hb]; subst.
  unfold order_by_id_desc in *. simpl. rewrite (IH Hs').
  apply insert_by_id_last.
  rewrite Forall_forall in Hb |- *. intros x Hx. apply Hb.
  apply list_elem_of_In in Hx. apply in_rev in Hx. now apply list_elem_of_In.
Qed.

Lemma isbn_taken_snoc (v : sqlval) (l : list Book.t) (r : Book.t) :
  isbn_taken v l = false ->
  is_null v = true \/ Book.isbn r <> v ->
  isbn_taken v (l ++ [r]) = false.
Proof.
  unfold isbn_taken. intros H Hr. rewrite existsb_app. simpl.
  destruct (is_null v); [reflexivity|]. simpl in *. rewrite H. simpl.
  destruct Hr as [Hr | Hr]; [discriminate|].
  now rewrite bool_decide_eq_false_2.
Qed.

(** X13: the listing of the unit tests' data-access double orders by id.
    On a consistent table with no fault pending, two books created one after
    the other, however little time apart, are listed latest first, ahead of
    every older row. *)
Theorem test_double_lists_latest_first (d1 d2 : BookData.t) (st : Store) (ms : Z) :
  consistent st ->
  faults st = [] ->
  truthy (BookData.title d1) = true -> truthy (BookData.author d1) = true ->
  truthy (BookData.title d2) = true -> truthy (BookData.author d2) = true ->
  isbn_taken (aff_text (bind_param (BookData.isbn d1))) (books st) = false ->
  isbn_taken (aff_text (bind_param (BookData.isbn d2))) (books st) = false ->
  is_null (aff_text (bind_param (BookData.isbn d2))) = true \/
  aff_text (bind_param (BookData.isbn d1)) <> aff_text (bind_param (BookData.isbn d2)) ->
  exists a b s1 s2,
    createBook d1 st = (Ok (Some a), s1) /\
    createBook d2 (tick ms s1) = (Ok (Some b), s2) /\
    test_getAllBooks s2 = (Ok (b :: a :: rev (books st)), s2).
Proof.
  intros (Hs & Hmax & _) Hf Ht1 Ha1 Ht2 Ha2 Hfree1 Hfree2 Hne.
  pose proof (createBook_calm d1 st Hf Ht1 Ha1 Hfree1) as H1.
  set (a := stored d1 (next_rowid st) (CURRENT_TIMESTAMP st) (CURRENT_TIMESTAMP st)) in *.
  set (s1 := mkStore (books st ++ [a]) (next_rowid st) (now_ms st) []) in *.
  assert (Hfree2' : isbn_taken (aff_text (bind_param (BookData.isbn d2)))
                      (books (tick ms s1)) = false)
    by (simpl; now apply isbn_taken_snoc).
  pose proof (createBook_calm d2 (tick ms s1) eq_refl Ht2 Ha2 Hfree2') as H2.
  set (b := stored d2 (next_rowid (tick ms s1)) (CURRENT_TIMESTAMP (tick ms s1))
              (CURRENT_TIMESTAMP (tick ms s1))) in *.
  eexists a, b, s1, _. split; [exact H1|]. split; [exact H2|].
  unfold test_getAllBooks. rewrite statement_calm by reflexivity. simpl.
  assert (Hs1 : StronglySorted id_lt (books st ++ [a])).
  { apply sorted_snoc; [exact Hs|]. apply Forall_forall. intros x Hx.
    apply max_rowid_bound in Hx. unfold id_lt. subst a. simpl.
    unfold next_rowid. lia. }
  assert (Hs2 : StronglySorted id_lt ((books st ++ [a]) ++ [b])).
  { apply sorted_snoc; [exact Hs1|]. apply Forall_forall. intros x Hx.
    apply max_rowid_bound in Hx. unfold id_lt. subst b. simpl.
    unfold next_rowid. simpl. lia. }
  rewrite (order_by_id_desc_rev _ Hs2). now rewrite !rev_app_distr.
Qed.

(** ** The envelope *)

(** X14: whatever the request and the store, the answer has one of the
    statuses 200, 201, 400, 404, 500; [success] is true exactly below 400;
    [error] is attached exactly to a 500; [data] comes only with a success;
    and every failure carries a message. *)
Theorem envelope_matches_status (r : Route) (req : Request) (st : Store) :
  exists (resp : Response) (st' : Store),
    router r req st = (Ok resp, st') /\
    In (status resp) [200; 201; 400; 404; 500]%nat /\
    success (json resp) = (status resp <? 400)%nat /\
    (error (json resp) <> None <-> status resp = 500%nat) /\
    (data (json resp) <> None -> success (json resp) = true) /\
    (success (json resp) = false -> message (json resp) <> None).
Proof.
  assert (Hw : forall g e,
            let resp := on_write_error g e in
            In (status resp) [200; 201; 400; 404; 500]%nat /\
            success (json resp) = (status resp <? 400)%nat /\
            (error (json resp) <> None <-> status resp = 500%nat) /\
            (data (json resp) <> None -> success (json resp) = true) /\
            (success (json resp) = false -> message (json resp) <> None)).
  { intros g e. unfold on_write_error. destruct (includes e _); simpl;
      repeat split; intros; try discriminate; try congruence; auto 6. }
  destruct r; simpl.
  - unfold get_books, try_catch, mbind, M_bind.
    destruct (getAllBooks st) as [[l|e] st']; simpl; eexists _, _;
      (split; [reflexivity|]); simpl;
      repeat split; intros; try discriminate; try congruence; auto 6.
  - unfold get_book, try_catch, mbind, M_bind.
    destruct (getBookById (JStr (params_id req)) st) as [[[b|]|e] st']; simpl;
      eexists _, _; (split; [reflexivity|]); simpl;
      repeat split; intros; try discriminate; try congruence; auto 6.
  - unfold post_book, try_catch, mbind, M_bind.
    destruct (negb _ || negb _).
    + simpl. eexists _, _. split; [reflexivity|]. simpl.
      repeat split; intros; try discriminate; try congruence; auto 6.
    + destruct (createBook (body_data (body req)) st) as [[b|e] st']; simpl.
      * eexists _, _. split; [reflexivity|]. simpl.
        repeat split; intros; try discriminate; try congruence; auto 6.
      * eexists _, _. split; [reflexivity|]. apply Hw.
  - unfold put_book, try_catch, mbind, M_bind.
    destruct (negb _ || negb _).
    + simpl. eexists _, _. split; [reflexivity|]. simpl.
      repeat split; intros; try discriminate; try congruence; auto 6.
    + destruct (updateBook _ (body_data (body req)) st) as [[[b|]|e] st']; simpl;
        eexists _, _; (split; [reflexivity|]); try apply Hw; simpl;
        repeat split; intros; try discriminate; try congruence; auto 6.
  - unfold delete_book_route, try_catch, mbind, M_bind.
    destruct (deleteBook (JStr (params_id req)) st) as [[[b|]|e] st']; simpl;
      eexists _, _; (split; [reflexivity|]); simpl;
      repeat split; intros; try discriminate; try congruence; auto 6.
Qed.

(** ** The conflict test *)

Lemma prefix_spec (t s : string) :
  String.prefix t s = true <-> exists post, s = (t ++ post)%string.
Proof.
  revert s. induction t as [|a t IH]; intros s.
  - split; [intros _; now exists s | intros _; now destruct s].
  - destruct s as [|b s]; simpl.
    + split; [discriminate | intros [post H]; discriminate].
    + destruct (Ascii.ascii_dec a b) as [->|Hne].
      * rewrite IH. split; intros [post H]; exists post; [now subst | now injection H].
      * split; [discriminate|]. intros [post H]. injection H as H _. congruence.
Qed.

Lemma includes_spec (s t : string) :
  includes s t = true <-> exists pre post, s = (pre ++ t ++ post)%string.
Proof.
  induction s as [|a s IH].
  - cbn [includes]. rewrite orb_false_r, prefix_spec. split.
    + intros [post H]. now exists EmptyString, post.
    + intros (pre & post & H). destruct pre; [now exists post | discriminate].
  - cbn [includes]. rewrite orb_true_iff, prefix_spec, IH. split.
    + intros [[post H] | (pre & post & H)].
      * now exists EmptyString, post.
      * exists (String a pre), post. simpl. now rewrite H.
    + intros (pre & post & H). destruct pre as [|c pre]; simpl in H.
      * left. now exists post.
      * right. injection H as _ H. now exists pre, post.
Qed.

(** X15: a failed write is reported as an isbn conflict exactly when the
    text 'UNIQUE constraint failed' occurs somewhere in the error message;
    what stands before or after it plays no part. *)
Theorem conflict_iff_substring (generic e : string) :
  on_write_error generic e =
    mkResponse 400 (mkEnvelope false (Some "ISBN already exists") None None None) <->
  exists pre post, e = (pre ++ "UNIQUE constraint failed" ++ post)%string.
Proof.
  rewrite <- includes_spec. unfold on_write_error, failure.
  destruct (includes e "UNIQUE constraint failed"); split; try reflexivity; discriminate.
Qed.

(** ** The form of the front end *)

Lemma value_or_null_stored (v : string) :
  aff_text (bind_param (value_or_null v)) = if String.eqb v "" then SNull else SText v.
Proof. unfold value_or_null. now destruct (String.eqb v ""). Qed.

(** X16: what the form sends and what the store keeps.  On a store with no
    fault pending: a form with an empty title or author is answered 400 and
    nothing is stored; otherwise (the isbn not held yet) the book is created
    with the title and author as typed, and every optional input left empty is
    stored as NULL, never as an empty text. *)
Theorem form_submission
    (title author isbn published_year genre description : string) (st : Store) :
  let form := formData title author isbn published_year genre description in
  faults st = [] ->
  (title = "" \/ author = "" ->
   post_book (mkRequest "" form) st =
     (Ok (mkResponse 400
            (mkEnvelope false (Some "Title and author are required") None None None)),
      st)) /\
  (title <> "" -> author <> "" ->
   isbn_taken (if String.eqb isbn "" then SNull else SText isbn) (books st) = false ->
   exists (r : Book.t) (st' : Store),
     post_book (mkRequest "" form) st =
       (Ok (mkResponse 201
              (mkEnvelope true (Some "Book created successfully")
                 (Some (PBook r)) None None)), st') /\
     books st' = books st ++ [r] /\
     Book.title r = SText title /\ Book.author r = SText author /\
     Book.isbn r = (if String.eqb isbn "" then SNull else SText isbn) /\
     Book.published_year r =
       (if String.eqb published_year "" then SNull else aff_int (SText published_year)) /\
     Book.genre r = (if String.eqb genre "" then SNull else SText genre) /\
     Book.description r =
       (if String.eqb description "" then SNull else SText description)).
Proof.
  intros form Hf.
  assert (Hd : body_data form =
               BookData.mk (JStr title) (JStr author) (value_or_null isbn)
                 (value_or_null published_year) (value_or_null genre)
                 (value_or_null description)) by reflexivity.
  split.
  - intros Hempty. unfold post_book, try_catch. cbn [body]. rewrite Hd. cbn [BookData.title BookData.author truthy].
    assert (E : negb (negb (String.eqb title "")) || negb (negb (String.eqb author "")) = true).
    { destruct Hempty as [-> | ->]; simpl; [reflexivity | apply orb_true_r]. }
    now rewrite E.
  - intros Ht Ha Hfree.
    assert (Ht' : truthy (BookData.title (body_data form)) = true).
    { rewrite Hd. simpl. now apply negb_true_iff, String.eqb_neq. }
    assert (Ha' : truthy (BookData.author (body_data form)) = true).
    { rewrite Hd. simpl. now apply negb_true_iff, String.eqb_neq. }
    assert (Hfree' : isbn_taken (aff_text (bind_param (BookData.isbn (body_data form))))
                       (books st) = false).
    { rewrite Hd. cbn [BookData.isbn]. now rewrite value_or_null_stored. }
    pose proof (createBook_calm _ st Hf Ht' Ha' Hfree') as Hc.
    eexists _, _. split; [|split].
    + unfold post_book, try_catch. cbn [body]. rewrite Ht', Ha'. cbn [negb orb].
      unfold mbind, M_bind. rewrite Hc. reflexivity.
    + reflexivity.
    + rewrite Hd. unfold stored. cbn [Book.title Book.author Book.isbn Book.published_year
        Book.genre Book.description BookData.title BookData.author BookData.isbn
        BookData.published_year BookData.genre BookData.description].
      rewrite !value_or_null_stored.
      repeat split. unfold value_or_null. now destruct (String.eqb published_year "").
Qed.

(** ** Start-up *)

Lemma insert_book_calm (d : BookData.t) (st : Store) :
  faults st = [] ->
  is_null (aff_text (bind_param (BookData.title d))) = false ->
  is_null (aff_text (bind_param (BookData.author d))) = false ->
  isbn_taken (aff_text (bind_param (BookData.isbn d))) (books st) = false ->
  insert_book d st =
    (Ok (next_rowid st),
     mkStore
       (books st ++ [stored d (next_rowid st) (CURRENT_TIMESTAMP st) (CURRENT_TIMESTAMP st)])
       (next_rowid st) (now_ms st) []).
Proof.
  intros Hf Ht Ha Hfree. unfold insert_book. rewrite statement_calm by assumption.
  change (Book.title (stored d (next_rowid st) (CURRENT_TIMESTAMP st) (CURRENT_TIMESTAMP st)))
    with (aff_text (bind_param (BookData.title d))).
  change (Book.author (stored d (next_rowid st) (CURRENT_TIMESTAMP st) (CURRENT_TIMESTAMP st)))
    with (aff_text (bind_param (BookData.author d))).
  change (Book.isbn (stored d (next_rowid st) (CURRENT_TIMESTAMP st) (CURRENT_TIMESTAMP st)))
    with (aff_text (bind_param (BookData.isbn d))).
  now rewrite Ht, Ha, Hfree, Hf.
Qed.

Lemma bootstrap_nonempty (st : Store) :
  faults st = [] -> books st <> [] -> bootstrap st = (Ok tt, st).
Proof.
  intros Hf Hne. unfold bootstrap, mbind at 1, M_bind at 1, create_table.
  rewrite statement_calm by assumption.
  unfold try_catch, mbind, M_bind, count_books. rewrite statement_calm by assumption.
  simpl. destruct (books st); [contradiction | reflexivity].
Qed.

Lemma run_each_consistent (l : list BookData.t) : preserves consistent (run_each l).
Proof.
  induction l as [|d l IH]; simpl; [apply preserves_ret|].
  apply preserves_bind; [apply insert_book_consistent | intros; exact IH].
Qed.

Lemma bootstrap_consistent : preserves consistent bootstrap.
Proof.
  apply preserves_bind.
  - apply preserves_statement; [apply consistent_set_faults|].
    intros st res st' H [= _ <-]. exact H.
  - intros _. apply preserves_bind.
    + apply preserves_try_catch; [|intros; apply preserves_ret].
      apply preserves_bind; [|intros; apply preserves_ret].
      apply preserves_statement; [apply consistent_set_faults|].
      intros st res st' H [= _ <-]. exact H.
    + intros [n|]; [|apply preserves_ret].
      apply preserves_if; [apply run_each_consistent | apply preserves_ret].
Qed.

(** X17: the start-up seeds an empty table and only an empty one.  With no
    fault pending it leaves a table that has rows exactly as it is; into an
    empty table it inserts the four sample books, in order, under four
    consecutive fresh ids and the current timestamp; running it again changes
    nothing; and a consistent table stays consistent. *)
Theorem bootstrap_seeds_empty_table_only (st : Store) :
  faults st = [] ->
  exists st',
    bootstrap st = (Ok tt, st') /\
    (books st <> [] -> st' = st) /\
    (books st = [] ->
     books st' =
       imap (fun k d => record_of d (next_rowid st + Z.of_nat k)
                          (CURRENT_TIMESTAMP st) (CURRENT_TIMESTAMP st)) sampleBooks /\
     sqlite_sequence st' = (next_rowid st + 3)%Z) /\
    bootstrap st' = (Ok tt, st') /\
    (consistent st -> consistent st').
Proof.
  intros Hf. destruct (books st) as [|b0 l0] eqn:Eb.
  - assert (Hrun : exists st',
              bootstrap st = (Ok tt, st') /\ faults st' = [] /\
              books st' =
                imap (fun k d => record_of d (next_rowid st + Z.of_nat k)
                                   (CURRENT_TIMESTAMP st) (CURRENT_TIMESTAMP st))
                  sampleBooks /\
              sqlite_sequence st' = (next_rowid st + 3)%Z).
    { unfold bootstrap, mbind at 1, M_bind at 1, create_table.
      rewrite statement_calm by assumption.
      unfold mbind at 1, M_bind at 1, try_catch, mbind at 1, M_bind at 1, count_books.
      rewrite statement_calm by assumption. rewrite Eb.
      cbn [length Nat.eqb mret M_ret]. unfold sampleBooks, run_each, mbind, M_bind.
      rewrite insert_book_calm; [|assumption | reflexivity | reflexivity |
                                  rewrite Eb; reflexivity].
      rewrite insert_book_calm; [|reflexivity | reflexivity | reflexivity |
                                  rewrite Eb; vm_compute; reflexivity].
      rewrite insert_book_calm; [|reflexivity | reflexivity | reflexivity |
                                  rewrite Eb; vm_compute; reflexivity].
      rewrite insert_book_calm; [|reflexivity | reflexivity | reflexivity |
                                  rewrite Eb; vm_compute; reflexivity].
      eexists. split; [reflexivity|]. split; [reflexivity|].
      cbn [books sqlite_sequence now_ms]. rewrite Eb.
      pose proof (max_rowid_nonneg ([] : list Book.t)) as Hnn.
      unfold CURRENT_TIMESTAMP, next_rowid. cbn [books sqlite_sequence now_ms].
      rewrite Eb. unfold stored, record_of.
      cbn -[Z.add Z.max Z.div].
      split; [|lia].
      repeat (f_equal; try lia). }
    destruct Hrun as (st' & Hrun & Hf' & Hbooks & Hseq).
    exists st'. split; [exact Hrun|]. split; [intros Hne; contradiction|].
    split; [intros _; now split|]. split.
    + apply bootstrap_nonempty; [exact Hf'|]. rewrite Hbooks. discriminate.
    + intros Hc. exact (bootstrap_consistent st (Ok tt) st' Hc Hrun).
  - assert (Hne : books st <> []) by (rewrite Eb; discriminate).
    exists st. rewrite (bootstrap_nonempty st Hf Hne).
    split; [reflexivity|]. split; [reflexivity|]. split; [intros; discriminate|].
    split; [reflexivity | auto].
Qed.

End Coverage.

(** ** The further properties at work on the sample library *)

Lemma library_consistent : consistent library.
Proof.
  unfold consistent, library. simpl. split; [|split; [lia|split]].
  - repeat constructor.
  - apply (bool_decide_unpack _). vm_compute. exact I.
  - repeat constructor.
Qed.

Lemma empty_store_consistent : consistent empty_store.
Proof.
  unfold consistent, empty_store. simpl.
  split; [constructor | split; [lia | split; constructor]].
Qed.

Lemma serve_keeps_consistent_witness :
  consistent (snd (serve (affinity := decimal) busy_day library)).
Proof.
  exact (serve_keeps_consistent (affinity := decimal) busy_day library library_consistent).
Defined.

Lemma ids_never_reused_witness :
  exists st',
    createBook (affinity := decimal) first_book
      (snd (serve (affinity := decimal) [(0%Z, DELETE_book, mkRequest "1" ∅)] library)) =
      (Ok (Some fourth_row), st') /\
    (Book.id gatsby < Book.id fourth_row)%Z.
Proof.
  eexists. split; [vm_compute; reflexivity|].
  apply (ids_never_reused (affinity := decimal) library gatsby
           [(0%Z, DELETE_book, mkRequest "1" ∅)] first_book fourth_row
           (mkStore [orwell; fourth_row] 4 1700000100250 []) library_consistent).
  - unfold library. simpl. left.
  - vm_compute. reflexivity.
Defined.

Lemma healthy_store_answers_witness :
  exists (resp : Response) (st' : Store),
    router (affinity := decimal) PUT_book (mkRequest "2" orwell_again) library =
      (Ok resp, st') /\
    ((status resp = 200 \/ status resp = 201) \/
     ((status resp = 400 \/ status resp = 404) /\ st' = library)).
Proof.
  exact (healthy_store_answers (affinity := decimal) PUT_book (mkRequest "2" orwell_again)
           library eq_refl).
Defined.

Lemma duplicate_isbn_rejected_witness :
  exists (r : Book.t) (st1 : Store),
    createBook (affinity := decimal) (body_data orwell_again) empty_store =
      (Ok (Some r), st1) /\
    post_book (affinity := decimal) (mkRequest "" orwell_again) (tick 60000 st1) =
      (Ok (mkResponse 400 (mkEnvelope false (Some "ISBN already exists") None None None)),
       tick 60000 st1).
Proof.
  apply (duplicate_isbn_rejected (affinity := decimal) (body_data orwell_again)
           (mkRequest "" orwell_again) empty_store 60000);
    vm_compute; reflexivity.
Defined.

Lemma update_keeping_isbn_succeeds_witness :
  exists (r : Book.t) (st' : Store),
    updateBook (affinity := decimal) (JStr "1") revision library = (Ok (Some r), st') /\
    Book.id r = Book.id gatsby /\ Book.isbn r = Book.isbn gatsby /\
    Book.created_at r = Book.created_at gatsby.
Proof.
  apply (update_keeping_isbn_succeeds (affinity := decimal) (JStr "1") revision library
           gatsby library_consistent); vm_compute; reflexivity.
Defined.

Lemma update_to_taken_isbn_conflicts_witness :
  put_book (affinity := decimal) (mkRequest "1" orwell_again) library =
    (Ok (mkResponse 400 (mkEnvelope false (Some "ISBN already exists") None None None)),
     library).
Proof.
  apply (update_to_taken_isbn_conflicts (affinity := decimal) (mkRequest "1" orwell_again)
           library gatsby orwell); try (vm_compute; reflexivity).
  unfold library. simpl. right. left.
Defined.

Lemma created_but_answered_500_witness :
  exists r,
    post_book (affinity := decimal) (mkRequest "" orwell_again) flaky_store =
      (Ok (mkResponse 500
             (mkEnvelope false (Some "Error creating book") None None
                (Some "SQLITE_IOERR: disk I/O error"))),
       mkStore [r] 1 1700000000000 []) /\
    Book.isbn r = SText "978-0-452-28423-4".
Proof.
  eexists. split.
  - apply (created_but_answered_500 (affinity := decimal) (mkRequest "" orwell_again)
             flaky_store "SQLITE_IOERR: disk I/O error" []); vm_compute; reflexivity.
  - reflexivity.
Defined.

Lemma create_then_delete_witness :
  exists (r : Book.t) (st1 st2 : Store),
    createBook (affinity := decimal) first_book library = (Ok (Some r), st1) /\
    deleteBook (affinity := decimal) (JNum (Book.id r)) st1 = (Ok (Some r), st2) /\
    books st2 = books library /\
    sqlite_sequence st2 = Book.id r /\
    (sqlite_sequence library < Book.id r)%Z.
Proof.
  apply (create_then_delete (affinity := decimal) first_book library);
    vm_compute; reflexivity.
Defined.

Lemma delete_twice_witness :
  delete_book_route (affinity := decimal) (mkRequest "3" ∅)
    (snd (delete_book_route (affinity := decimal) (mkRequest "3" ∅) library)) =
    (Ok not_found, snd (delete_book_route (affinity := decimal) (mkRequest "3" ∅) library)).
Proof.
  exact (delete_twice (affinity := decimal) (mkRequest "3" ∅) library eq_refl).
Defined.

Lemma update_twice_witness :
  exists (r2 : Book.t) (st2 : Store),
    updateBook (affinity := decimal) (JStr "1") revision
      (tick 5000 (snd (updateBook (affinity := decimal) (JStr "1") revision library))) =
      (Ok (Some r2), st2) /\
    updateBook (affinity := decimal) (JStr "1") revision (tick 5000 library) =
      (Ok (Some r2), st2).
Proof.
  apply (update_twice (affinity := decimal) (JStr "1") revision library gatsby 5000);
    vm_compute; reflexivity.
Defined.

Lemma list_reports_every_row_witness :
  exists l,
    get_books (mkRequest "" ∅) library =
      (Ok (mkResponse 200 (mkEnvelope true None (Some (PBooks l)) (Some 2%nat) None)),
       library) /\
    Permutation l (books library) /\
    Sorted newer_or_same l.
Proof.
  exact (list_reports_every_row (mkRequest "" ∅) library eq_refl).
Defined.

Lemma test_double_lists_latest_first_witness :
  exists a b s1 s2,
    createBook (affinity := decimal) first_book empty_store = (Ok (Some a), s1) /\
    createBook (affinity := decimal) second_book (tick 100 s1) = (Ok (Some b), s2) /\
    test_getAllBooks s2 = (Ok [b; a], s2).
Proof.
  apply (test_double_lists_latest_first (affinity := decimal) first_book second_book
           empty_store 100 empty_store_consistent);
    try (vm_compute; reflexivity).
  left. reflexivity.
Defined.

Lemma envelope_matches_status_witness :
  exists (resp : Response) (st' : Store),
    router (affinity := decimal) DELETE_book (mkRequest "3" ∅) failing_library =
      (Ok resp, st') /\
    status resp = 500%nat /\ error (json resp) <> None /\ success (json resp) = false.
Proof.
  destruct (envelope_matches_status (affinity := decimal) DELETE_book (mkRequest "3" ∅)
              failing_library) as (resp & st' & Hrun & _ & Hs & He & _).
  exists resp, st'. split; [exact Hrun|].
  assert (H500 : status resp = 500%nat).
  { vm_compute in Hrun. now injection Hrun as <- _. }
  split; [exact H500|]. split; [now apply He|].
  rewrite Hs, H500. reflexivity.
Defined.

Lemma form_submission_witness :
  post_book (affinity := decimal)
    (mkRequest "" (formData "" "Frank Herbert" "" "1965" "" "")) library =
    (Ok (mkResponse 400
           (mkEnvelope false (Some "Title and author are required") None None None)),
     library) /\
  exists (r : Book.t) (st' : Store),
    post_book (affinity := decimal)
      (mkRequest "" (formData "Dune" "Frank Herbert" "" "1965" "" "")) library =
      (Ok (mkResponse 201
             (mkEnvelope true (Some "Book created successfully")
                (Some (PBook r)) None None)), st') /\
    Book.isbn r = SNull /\ Book.genre r = SNull /\ Book.published_year r = SInt 1965.
Proof.
  split.
  - apply (form_submission (affinity := decimal) "" "Frank Herbert" "" "1965" "" ""
             library eq_refl). now left.
  - destruct (proj2 (form_submission (affinity := decimal) "Dune" "Frank Herbert" "" "1965"
                       "" "" library eq_refl))
      as (r & st' & Hrun & _ & _ & _ & Hi & Hy & Hg & _);
      [discriminate | discriminate | reflexivity |].
    exists r, st'. split; [exact Hrun|]. split; [exact Hi|]. split; [exact Hg | exact Hy].
Defined.

Lemma bootstrap_seeds_empty_table_only_witness :
  exists st',
    bootstrap (affinity := decimal) empty_store = (Ok tt, st') /\
    map Book.id (books st') = [1; 2; 3; 4]%Z /\
    bootstrap (affinity := decimal) st' = (Ok tt, st') /\
    consistent st'.
Proof.
  destruct (bootstrap_seeds_empty_table_only (affinity := decimal) empty_store eq_refl)
    as (st' & Hrun & _ & Hseed & Hagain & Hcons).
  exists st'. split; [exact Hrun|]. split; [|split; [exact Hagain|]].
  - destruct (Hseed eq_refl) as [-> _]. reflexivity.
  - exact (Hcons empty_store_consistent).
Defined.
